(** * kyotei-ai v5 frontend: the race-analysis page

    A shallow embedding of [frontend/src/pages/RaceAnalysis.jsx],
    [frontend/src/api/client.js] and the part of [frontend/src/App.jsx]
    that mounts the page, together with the properties of the rendering
    and of the request life cycle.

    The page receives the parsed JSON body of [POST /api/v5/analyze] and
    inspects it with JavaScript's dynamic operations (optional chaining,
    truthiness, [Array.prototype.map], [Number.prototype.toFixed], ...).
    The embedding therefore works on untyped JSON values and gives every
    operation the outcome JavaScript gives it, including the [TypeError]s. *)

From Stdlib Require Import ZArith String List DecimalString.
From Stdlib Require Import Floats.SpecFloat.
From stdpp Require Import gmap strings list.

#[local] Set Warnings "-register-all".

(* ================================================================== *)
(** ** JavaScript values and the operations the page uses              *)
(* ================================================================== *)

Module Js.

(** A JSON value as [JSON.parse] (axios) hands it to the page, plus
    [undefined], which is what reading a missing property gives.  Numbers
    are IEEE binary64 values ([spec_float] at precision 53); objects are
    finite maps from own property names to values. *)
Inductive JsVal : Type :=
| JUndefined
| JNull
| JBool (b : bool)
| JNum (x : spec_float)
| JStr (s : string)
| JArr (l : list JsVal)
| JObj (o : gmap string JsVal).

(** What evaluating an expression can do: return, or throw.  A
    [TypeError] is thrown by the component function itself, [InvalidChild]
    by React when it renders what the function returned.  [OutsideModel]
    marks the few coercions that are not embedded (parsing a string as a
    number, the decimal form of a property key that is a fraction): it is
    never the answer on a response of the documented shape.  When one
    render has several faults the embedding reports the first one in
    source order; the properties below only tell [Returns] from
    [Throws]. *)
Inductive Thrown : Type := TypeError | InvalidChild | OutsideModel.

Inductive Outcome (A : Type) : Type :=
| Returns (a : A)
| Throws (e : Thrown).
Arguments Returns {A} a.
Arguments Throws {A} e.

Definition bind {A B : Type} (m : Outcome A) (k : A -> Outcome B) : Outcome B :=
  match m with
  | Returns a => k a
  | Throws e => Throws e
  end.

Notation "'let!' x ':=' m 'in' k" := (bind m (fun x => k))
  (at level 10, x name, m at level 100, k at level 200).

Fixpoint traverse {A B : Type} (f : A -> Outcome B) (l : list A) : Outcome (list B) :=
  match l with
  | [] => Returns []
  | a :: l' =>
      let! b := f a in
      let! bs := traverse f l' in
      Returns (b :: bs)
  end.

(** [collect] is [traverse id]; recursive functions over [JsVal] use it
    after a [map], which keeps their recursion structural. *)
Fixpoint collect {A : Type} (l : list (Outcome A)) : Outcome (list A) :=
  match l with
  | [] => Returns []
  | m :: l' =>
      let! b := m in
      let! bs := collect l' in
      Returns (b :: bs)
  end.

(** *** Text

    Strings built by the page.  The decimal form of a number that is not
    a small integer, and the source text of a built-in function, are kept
    as symbols: the page never inspects them. *)
Inductive piece : Type :=
| Lit (s : string)
| NumStr (x : spec_float)
| FnSrc (name : string).

Definition text : Type := list piece.

Fixpoint text_string (t : text) : option string :=
  match t with
  | [] => Some EmptyString
  | Lit s :: t' => option_map (String.append s) (text_string t')
  | _ :: _ => None
  end.

(** *** Numbers *)

Definition prec : Z := 53.
Definition emax : Z := 1024.

Definition num_of_Z (z : Z) : spec_float := binary_normalize prec emax z 0 false.

Definition NaN : spec_float := S754_nan.

(** The [*] operator on two numbers. *)
Definition num_mul (x y : spec_float) : spec_float := SFmul prec emax x y.

Definition digits (n : Z) : string := NilZero.string_of_uint (N.to_uint (Z.to_N n)).

Fixpoint zeros (k : nat) : string :=
  match k with
  | O => EmptyString
  | S k' => "0" +:+ zeros k'
  end.

(** Steps 9-10 of [Number.prototype.toFixed]: the digits of [n] with a
    decimal point before the last [f] of them. *)
Definition fixed_point (f : nat) (n : Z) : string :=
  let s := digits n in
  match f with
  | O => s
  | S _ =>
      let k := String.length s in
      let s' := if (k <=? f)%nat then zeros (f + 1 - k) +:+ s else s in
      let a := (String.length s' - f)%nat in
      substring 0 a s' +:+ "." +:+ substring a f s'
  end.

(** The integer [n] for which [n / 10^f] is closest to [m * 2^e], the
    larger one on a tie. *)
Definition scaled (f : nat) (m : positive) (e : Z) : Z :=
  let p := (10 ^ Z.of_nat f)%Z in
  if (0 <=? e)%Z then (Z.pos m * 2 ^ e * p)%Z
  else ((Z.pos m * p * 2 + 2 ^ (- e)) / 2 ^ (1 - e))%Z.

Definition at_least_1e21 (m : positive) (e : Z) : bool :=
  if (0 <=? e)%Z then (10 ^ 21 <=? Z.pos m * 2 ^ e)%Z
  else (10 ^ 21 * 2 ^ (- e) <=? Z.pos m)%Z.

(** [x.toFixed(f)] for a number [x] and [0 <= f <= 100]. *)
Definition toFixed (f : nat) (x : spec_float) : text :=
  match x with
  | S754_nan => [Lit "NaN"]
  | S754_infinity false => [Lit "Infinity"]
  | S754_infinity true => [Lit "-Infinity"]
  | S754_zero _ => [Lit (fixed_point f 0)]
  | S754_finite s m e =>
      let sign := if s then "-" else EmptyString in
      if at_least_1e21 m e then [Lit sign; NumStr (S754_finite false m e)]
      else [Lit (sign +:+ fixed_point f (scaled f m e))]
  end.

(** [Number::toString]: exact on the integers below [2^53], symbolic on
    the other finite numbers. *)
Definition safe_integer (m : positive) (e : Z) : option Z :=
  if (0 <=? e)%Z then
    if (Z.pos m * 2 ^ e <? 2 ^ 53)%Z then Some (Z.pos m * 2 ^ e)%Z else None
  else
    if ((Z.pos m mod 2 ^ (- e) =? 0) && (Z.pos m / 2 ^ (- e) <? 2 ^ 53))%Z
    then Some (Z.pos m / 2 ^ (- e))%Z else None.

Definition Number_toString (x : spec_float) : text :=
  match x with
  | S754_nan => [Lit "NaN"]
  | S754_infinity false => [Lit "Infinity"]
  | S754_infinity true => [Lit "-Infinity"]
  | S754_zero _ => [Lit "0"]
  | S754_finite s m e =>
      match safe_integer m e with
      | Some n => [Lit ((if s then "-" else EmptyString) +:+ digits n)]
      | None => [NumStr x]
      end
  end.

(** *** Coercions *)

(** [ToBoolean]. *)
Definition truthy (v : JsVal) : bool :=
  match v with
  | JUndefined | JNull => false
  | JBool b => b
  | JNum (S754_zero _) | JNum S754_nan => false
  | JNum _ => true
  | JStr s => negb (String.eqb s EmptyString)
  | JArr _ | JObj _ => true
  end.

(** [ToPrimitive] of a plain object goes through [toString]/[valueOf];
    an own property of that name parsed from JSON is not callable, and
    with an own ["toString"] the conversion ends in a [TypeError]. *)
Definition object_to_primitive (o : gmap string JsVal) : Outcome text :=
  match o !! "toString" with
  | Some _ => Throws TypeError
  | None => Returns [Lit "[object Object]"]
  end.

Definition join_text (sep : string) (ts : list text) : text :=
  match ts with
  | [] => []
  | t :: ts' => t ++ concat (map (fun t' => Lit sep :: t') ts')
  end.

(** [ToString]; an array is joined with [","], where [null] and
    [undefined] elements give the empty string. *)
Fixpoint ToString (v : JsVal) : Outcome text :=
  match v with
  | JUndefined => Returns [Lit "undefined"]
  | JNull => Returns [Lit "null"]
  | JBool b => Returns [Lit (if b then "true" else "false")]
  | JNum x => Returns (Number_toString x)
  | JStr s => Returns [Lit s]
  | JArr l =>
      let! ts := collect (map (fun e => match e with
                                        | JUndefined | JNull => Returns []
                                        | _ => ToString e
                                        end) l) in
      Returns (join_text "," ts)
  | JObj o => object_to_primitive o
  end.

(** The element conversion of [Array.prototype.join]. *)
Definition join_element (e : JsVal) : Outcome text :=
  match e with
  | JUndefined | JNull => Returns []
  | _ => ToString e
  end.

(** [ToNumber], for the operand of [*]. *)
Definition ToNumber (v : JsVal) : Outcome spec_float :=
  match v with
  | JUndefined => Returns NaN
  | JNull => Returns (S754_zero false)
  | JBool b => Returns (if b then num_of_Z 1 else S754_zero false)
  | JNum x => Returns x
  | JStr _ | JArr _ => Throws OutsideModel
  | JObj o => let! _ := object_to_primitive o in Returns NaN
  end.

(** *** Property access

    [get v k] is [v.k] for the property names the page reads (none of
    them is a property of a built-in prototype): the own property of an
    object, [undefined] on every other value that is not [null] or
    [undefined], a [TypeError] on those two. *)
Definition own (o : gmap string JsVal) (k : string) : JsVal :=
  default JUndefined (o !! k).

Definition get (v : JsVal) (k : string) : Outcome JsVal :=
  match v with
  | JUndefined | JNull => Throws TypeError
  | JObj o => Returns (own o k)
  | _ => Returns JUndefined
  end.

(** [v?.k]. *)
Definition get_opt (v : JsVal) (k : string) : JsVal :=
  match v with
  | JObj o => own o k
  | _ => JUndefined
  end.

(** [a === b] where [b] is a string literal. *)
Definition strict_eq_str (a : JsVal) (b : string) : bool :=
  match a with
  | JStr s => String.eqb s b
  | _ => false
  end.

(** *** Array methods *)

(** [Array.prototype.slice(start, end)] with integer arguments. *)
Definition slice {A : Type} (start end_ : Z) (l : list A) : list A :=
  let len := Z.of_nat (length l) in
  let k := if (start <? 0)%Z then Z.max (len + start) 0 else Z.min start len in
  let final := if (end_ <? 0)%Z then Z.max (len + end_) 0 else Z.min end_ len in
  take (Z.to_nat (final - k)) (drop (Z.to_nat k) l).

(** [v?.map(f)]: [undefined] (nothing to show) when [v] is [null] or
    [undefined], [f] over the elements of an array; on any other JSON
    value [v.map] is not a function. *)
Definition map_opt {B : Type} (v : JsVal) (f : JsVal -> Outcome B) : Outcome (list B) :=
  match v with
  | JUndefined | JNull => Returns []
  | JArr l => traverse f l
  | _ => Throws TypeError
  end.

(** [v?.slice(start, end).map(f)]; a string has a [slice] too, but its
    result has no [map]. *)
Definition slice_map_opt {B : Type} (start end_ : Z) (v : JsVal)
    (f : JsVal -> Outcome B) : Outcome (list B) :=
  match v with
  | JUndefined | JNull => Returns []
  | JArr l => traverse f (slice start end_ l)
  | _ => Throws TypeError
  end.

(** [v.join(sep)]. *)
Definition join (v : JsVal) (sep : string) : Outcome text :=
  match v with
  | JArr l => let! ts := traverse join_element l in Returns (join_text sep ts)
  | _ => Throws TypeError
  end.

(** [v?.toFixed(f)]. *)
Definition toFixed_opt (v : JsVal) (f : nat) : Outcome text :=
  match v with
  | JUndefined | JNull => Returns []
  | JNum x => Returns (toFixed f x)
  | _ => Throws TypeError
  end.

(** *** Object literals used as lookup tables

    [table[key]] on an object literal with string values: an own
    property, else what the key finds on [Object.prototype]. *)
Inductive Looked : Type :=
| LUndefined
| LOwn (s : string)
| LInheritedFn (name : string)
| LPrototype.

Definition object_prototype_methods : list string :=
  [ "constructor"; "hasOwnProperty"; "isPrototypeOf"; "propertyIsEnumerable";
    "toLocaleString"; "toString"; "valueOf";
    "__defineGetter__"; "__defineSetter__"; "__lookupGetter__"; "__lookupSetter__" ].

Definition inherited (key : string) : Looked :=
  if String.eqb key "__proto__" then LPrototype
  else if existsb (String.eqb key) object_prototype_methods then LInheritedFn key
  else LUndefined.

Definition lookup_table (table : gmap string string) (key : string) : Looked :=
  match table !! key with
  | Some s => LOwn s
  | None => inherited key
  end.

(** [ToPropertyKey]. *)
Definition ToPropertyKey (v : JsVal) : Outcome string :=
  let! t := ToString v in
  match text_string t with
  | Some s => Returns s
  | None => Throws OutsideModel
  end.

(** [`${x}`] for the result of a table lookup. *)
Definition Looked_to_text (x : Looked) : text :=
  match x with
  | LUndefined => [Lit "undefined"]
  | LOwn s => [Lit s]
  | LInheritedFn name => [FnSrc name]
  | LPrototype => [Lit "[object Object]"]
  end.

End Js.

(* ================================================================== *)
(** ** What React does with the children of an element                 *)
(* ================================================================== *)

Module React.
Import Js.

(** The text a primitive JSX child [{v}] contributes: nothing for
    [undefined], [null] and booleans, the string itself, the decimal form
    of a number. *)
Definition primitive (v : JsVal) : text :=
  match v with
  | JNum x => Number_toString x
  | JStr s => [Lit s]
  | _ => []
  end.

(** A JSX child [{v}]: the children of an array contribute one after the
    other; React refuses a plain object ("Objects are not valid as a
    React child") by throwing while it renders. *)
Fixpoint child (v : JsVal) : Outcome text :=
  match v with
  | JArr l => let! ts := collect (map child l) in Returns (concat ts)
  | JObj _ => Throws InvalidChild
  | _ => Returns (primitive v)
  end.

(** A child that is the result of a table lookup; React skips a function
    (with a warning in development builds). *)
Definition child_looked (x : Looked) : Outcome text :=
  match x with
  | LUndefined => Returns []
  | LOwn s => Returns [Lit s]
  | LInheritedFn _ => Returns []
  | LPrototype => Throws InvalidChild
  end.

End React.

(* ================================================================== *)
(** ** api/client.js                                                   *)
(* ================================================================== *)

Module Client.
Import Js.

(** How the POST to [/api/v5/analyze] ends: a 2xx answer with its parsed
    body, or a rejection (transport failure, timeout after 60000 ms,
    status outside 2xx) with the error axios raises. *)
Inductive Settled : Type :=
| Fulfilled (data : JsVal)
| Rejected (err : JsVal).

Definition timeout : Z := 60000.

(** [analyzeRace]: [response.data] on success; on failure the error is
    logged and thrown again unchanged. *)
Definition analyzeRace (http : Settled) : Settled :=
  match http with
  | Fulfilled data => Fulfilled data
  | Rejected error => Rejected error
  end.

(** What [analyzeRace(venue, raceNumber)] posts: the race number goes
    under the key [race_number]. *)
Record Request : Type := { method : string; path : string; body : gmap string JsVal }.

Definition analyze_request (venue : string) (raceNumber : N) : Request :=
  {| method := "POST";
     path := "/api/v5/analyze";
     body := {[ "venue" := JStr venue;
                "race_number" := JNum (num_of_Z (Z.of_N raceNumber)) ]} |}.

End Client.

(* ================================================================== *)
(** ** pages/RaceAnalysis.jsx                                          *)
(* ================================================================== *)

Module Page.
Import Js.

(** [venue] is one of the 24 names of [App], [raceNumber] a number from
    1 to 12. *)
Record Props : Type := { venue : string; raceNumber : N }.

(** The three [useState] cells of the component. *)
Record State : Type := { loading : bool; result : JsVal; error : JsVal }.

Definition initial : State := {| loading := true; result := JNull; error := JNull |}.

Definition setLoading (b : bool) (st : State) : State :=
  {| loading := b; result := result st; error := error st |}.
Definition setResult (data : JsVal) (st : State) : State :=
  {| loading := loading st; result := data; error := error st |}.
Definition setError (e : JsVal) (st : State) : State :=
  {| loading := loading st; result := result st; error := e |}.

Definition generic_failure : string := "分析に失敗しました".

(** [analyze], up to its [await]: the two updates made before the
    request is sent. *)
Definition analyze_begin (st : State) : State :=
  setError JNull (setLoading true st).

(** [err.message || '分析に失敗しました'] in the [catch] block.  Reading
    [message] off [null] or [undefined] throws inside the handler. *)
Definition failure_message (err : JsVal) : Outcome JsVal :=
  let! m := get err "message" in
  Returns (if truthy m then m else JStr generic_failure).

(** [analyze], from the point where the awaited request settles: the
    [try] or the [catch] part, then [finally].  When the [catch] block
    itself throws, [finally] still runs. *)
Definition analyze_settle (s : Client.Settled) (st : State) : State :=
  match Client.analyzeRace s with
  | Client.Fulfilled data => setLoading false (setResult data st)
  | Client.Rejected err =>
      match failure_message err with
      | Returns msg => setLoading false (setError msg st)
      | Throws _ => setLoading false st
      end
  end.

(** *** What the component returns *)

Record TicketRow : Type := {
  combination : text;
  type_ : text;
  amount : text;
  odds : text;
  purpose_inline : text;
  purpose_note : option text
}.

Record PredictionRow : Type := { boats : text; confidence : text }.

Record FullView : Type := {
  heading : text;
  category_class : text;
  category_icon : text;
  description : text;
  stability : text;
  expected_value : text;
  strategy : text;
  tickets : list TicketRow;
  total_investment : text;
  honmeiTop3 : list PredictionRow;
  chuuaneTop3 : list PredictionRow;
  checks : list text;
  quality : text
}.

Inductive View : Type :=
| Loading
| Failed (message : text)
| SkipRecommended (reasons : list text) (stability expected_value : text)
| DataInsufficient (message quality_score : text)
| FullAnalysis (v : FullView).

Definition categoryColors : gmap string string :=
  {[ "stable" := "bg-green-100 text-green-800";
     "mixed" := "bg-yellow-100 text-yellow-800";
     "upset" := "bg-red-100 text-red-800" ]}.

Definition categoryIcons : gmap string string :=
  {[ "stable" := "🟢"; "mixed" := "🟡"; "upset" := "🔴" ]}.

(** [<li>• {reason}</li>] *)
Definition reason_item (reason : JsVal) : Outcome text :=
  let! r := React.child reason in
  Returns (Lit "• " :: r).

(** The branch of line 63. *)
Definition skip_view (result : JsVal) : Outcome View :=
  let! skip_reasons := get result "skip_reasons" in
  let! items := map_opt skip_reasons reason_item in
  let! stab := get result "stability" in
  let! stab := React.child stab in
  let! ev := get result "expected_value" in
  let! ev := toFixed_opt ev 1 in
  Returns (SkipRecommended items (stab ++ [Lit "%"]) (ev ++ [Lit "%"])).

(** [(x * 100).toFixed(0)] *)
Definition percent (x : JsVal) : Outcome text :=
  let! n := ToNumber x in
  Returns (toFixed 0 (num_mul n (num_of_Z 100))).

(** The branch of line 106. *)
Definition insufficient_view (result : JsVal) : Outcome View :=
  let! message := get result "message" in
  let! message := React.child message in
  let! q := get result "quality_score" in
  let! q := percent q in
  Returns (DataInsufficient message (Lit "品質スコア: " :: q ++ [Lit "%"])).

(** The callback of [tickets?.map]. *)
Definition ticket_row (ticket : JsVal) : Outcome TicketRow :=
  let! c := get ticket "combination" in
  let! c := React.child c in
  let! t := get ticket "type" in
  let! t := React.child t in
  let! a := get ticket "amount" in
  let! a := React.child a in
  let! o := get ticket "odds" in
  let! o := React.child o in
  let! purpose := get ticket "purpose" in
  let! p := React.child purpose in
  Returns {| combination := c;
             type_ := Lit "(" :: t ++ [Lit ")"];
             amount := a ++ [Lit "円"];
             odds := o ++ [Lit "倍"];
             purpose_inline := if truthy purpose then [] else p;
             purpose_note := if truthy purpose then Some p else None |}.

(** The callback of [honmei?.slice(0, 3).map] and of its [chuuane] twin. *)
Definition prediction_row (pred : JsVal) : Outcome PredictionRow :=
  let! b := get pred "boats" in
  let! b := join b "-" in
  let! c := get pred "confidence" in
  let! c := React.child c in
  Returns {| boats := b; confidence := Lit "信頼度: " :: c ++ [Lit "%"] |}.

(** [<p key={i}>{check}</p>] *)
Definition check_item (check : JsVal) : Outcome text := React.child check.

(** The final [return], lines 141-265. *)
Definition full_view (p : Props) (result : JsVal) : Outcome View :=
  let! category := get result "category" in
  let! key := ToPropertyKey category in
  let color := lookup_table categoryColors key in
  let! icon := React.child_looked (lookup_table categoryIcons key) in
  let! desc := get result "description" in
  let! desc := React.child desc in
  let! stab := get result "stability" in
  let! stab := React.child stab in
  let! ev := get result "expected_value" in
  let! ev := toFixed_opt ev 1 in
  let! recommendations := get result "recommendations" in
  let! strat := React.child (get_opt recommendations "strategy") in
  let! rows := map_opt (get_opt recommendations "tickets") ticket_row in
  let! total := React.child (get_opt recommendations "total_investment") in
  let! predictions := get result "predictions" in
  let! honmei := slice_map_opt 0 3 (get_opt predictions "honmei") prediction_row in
  let! chuuane := slice_map_opt 0 3 (get_opt predictions "chuuane") prediction_row in
  let! data_quality := get result "data_quality" in
  let! cs := map_opt (get_opt data_quality "checks") check_item in
  let! q := percent (get_opt data_quality "score") in
  Returns (FullAnalysis
    {| heading := [Lit (venue p); Lit " 第"; Lit (digits (Z.of_N (raceNumber p))); Lit "R"];
       category_class :=
         Lit "inline-block px-4 py-2 rounded-full font-bold " :: Looked_to_text color;
       category_icon := icon;
       description := desc;
       stability := stab ++ [Lit "%"];
       expected_value := Lit "+" :: ev ++ [Lit "%"];
       strategy := strat;
       tickets := rows;
       total_investment := total ++ [Lit "円"];
       honmeiTop3 := honmei;
       chuuaneTop3 := chuuane;
       checks := cs;
       quality := Lit "品質スコア: " :: q ++ [Lit "%"] |}).

(** [result?.should_skip || result?.status === 'skip'] *)
Definition skip_test (result : JsVal) : bool :=
  truthy (get_opt result "should_skip")
  || strict_eq_str (get_opt result "status") "skip".

(** [result?.status === 'data_insufficient'] *)
Definition insufficient_test (result : JsVal) : bool :=
  strict_eq_str (get_opt result "status") "data_insufficient".

(** The component function: one render from the current props and state. *)
Definition RaceAnalysis (p : Props) (st : State) : Outcome View :=
  if loading st then Returns Loading
  else if truthy (error st) then
    let! e := React.child (error st) in Returns (Failed e)
  else if skip_test (result st) then skip_view (result st)
  else if insufficient_test (result st) then insufficient_view (result st)
  else full_view p (result st).

(** *** The effect

    [useEffect(..., [venue, raceNumber])] starts [analyze] after the
    first render and after every render in which one of the two props
    changed.  Nothing identifies the request a settlement belongs to and
    the effect returns no clean-up, so every settlement of every request
    the mounted component ever sent runs [analyze_settle]. *)
Inductive Event : Type :=
| Start (session : nat) (p : Props)
| Settle (session : nat) (s : Client.Settled).

Definition step (st : State) (ev : Event) : State :=
  match ev with
  | Start _ _ => analyze_begin st
  | Settle _ s => analyze_settle s st
  end.

Definition run (st : State) (trace : list Event) : State := fold_left step trace st.

Definition is_start (ev : Event) : bool :=
  match ev with
  | Start _ _ => true
  | Settle _ _ => false
  end.

(** The state of a freshly mounted page whose one request was fulfilled
    with [data]. *)
Definition fulfilled (data : JsVal) : State :=
  analyze_settle (Client.Fulfilled data) (analyze_begin initial).

(** The props of the last [Start], that is, what the parent currently
    asks the page to show. *)
Fixpoint current_props (p0 : Props) (trace : list Event) : Props :=
  match trace with
  | [] => p0
  | Start _ p :: tr => current_props p tr
  | Settle _ _ :: tr => current_props p0 tr
  end.

Fixpoint last_started (trace : list Event) : option nat :=
  match trace with
  | [] => None
  | Start n _ :: tr => match last_started tr with Some k => Some k | None => Some n end
  | Settle _ _ :: tr => last_started tr
  end.

(** A trace is well formed when sessions are numbered in the order they
    start and a request settles at most once, after it was sent:
    [pending] lists the sessions whose request is in flight. *)
Fixpoint well_formed (next : nat) (pending : list nat) (trace : list Event) : bool :=
  match trace with
  | [] => true
  | Start n _ :: tr => Nat.eqb n next && well_formed (S next) (n :: pending) tr
  | Settle n _ :: tr =>
      existsb (Nat.eqb n) pending
      && well_formed next (filter (fun k => negb (Nat.eqb n k)) pending) tr
  end.

(** The data the last fulfilled request brought, whatever its session. *)
Fixpoint last_fulfilled (d0 : JsVal) (trace : list Event) : JsVal :=
  match trace with
  | [] => d0
  | Settle _ (Client.Fulfilled d) :: tr => last_fulfilled d tr
  | _ :: tr => last_fulfilled d0 tr
  end.

(** The outcome of the request of session [n], if it has settled. *)
Fixpoint outcome_of (n : nat) (trace : list Event) : option Client.Settled :=
  match trace with
  | [] => None
  | Settle k s :: tr => if Nat.eqb k n then Some s else outcome_of n tr
  | _ :: tr => outcome_of n tr
  end.

(** *** Responses of the documented shape

    The predicates the properties below are stated with.  A response is
    an object; every property may be missing, and one that is present
    has the type the data model of the endpoint gives it.  In an element
    of [tickets] every property is optional, in an element of
    [honmei]/[chuuane] the [boats] array is required.  [category] is one
    of the three documented names. *)
Definition is_bool (v : JsVal) : bool := match v with JBool _ => true | _ => false end.
Definition is_num (v : JsVal) : bool := match v with JNum _ => true | _ => false end.
Definition is_str (v : JsVal) : bool := match v with JStr _ => true | _ => false end.

Definition is_category (v : JsVal) : bool :=
  match v with
  | JStr s => String.eqb s "stable" || String.eqb s "mixed" || String.eqb s "upset"
  | _ => false
  end.

Definition is_array_of (P : JsVal -> bool) (v : JsVal) : bool :=
  match v with JArr l => forallb P l | _ => false end.

Definition is_object_of (P : gmap string JsVal -> bool) (v : JsVal) : bool :=
  match v with JObj o => P o | _ => false end.

Definition optional (P : JsVal -> bool) (o : gmap string JsVal) (k : string) : bool :=
  match o !! k with
  | None => true
  | Some v => P v
  end.

Definition required (P : JsVal -> bool) (o : gmap string JsVal) (k : string) : bool :=
  match o !! k with
  | None => false
  | Some v => P v
  end.

Definition wf_ticket (o : gmap string JsVal) : bool :=
  optional is_str o "combination" && optional is_str o "type"
  && optional is_num o "amount" && optional is_num o "odds"
  && optional is_str o "purpose".

Definition wf_prediction (o : gmap string JsVal) : bool :=
  required (is_array_of is_num) o "boats" && optional is_num o "confidence".

Definition wf_recommendations (o : gmap string JsVal) : bool :=
  optional is_str o "strategy"
  && optional (is_array_of (is_object_of wf_ticket)) o "tickets"
  && optional is_num o "total_investment".

Definition wf_predictions (o : gmap string JsVal) : bool :=
  optional (is_array_of (is_object_of wf_prediction)) o "honmei"
  && optional (is_array_of (is_object_of wf_prediction)) o "chuuane".

Definition wf_data_quality (o : gmap string JsVal) : bool :=
  optional (is_array_of is_str) o "checks" && optional is_num o "score".

(** The properties the skip and data-insufficient branches read. *)
Definition wf_flags (o : gmap string JsVal) : bool :=
  optional is_str o "status" && optional is_bool o "should_skip".

Definition wf_skip (o : gmap string JsVal) : bool :=
  optional (is_array_of is_str) o "skip_reasons"
  && optional is_num o "stability" && optional is_num o "expected_value".

Definition wf_insufficient (o : gmap string JsVal) : bool :=
  optional is_str o "message" && optional is_num o "quality_score".

Definition wf_full (o : gmap string JsVal) : bool :=
  optional is_str o "description"
  && optional is_num o "stability" && optional is_num o "expected_value"
  && optional (is_object_of wf_recommendations) o "recommendations"
  && optional (is_object_of wf_predictions) o "predictions"
  && optional (is_object_of wf_data_quality) o "data_quality".

Definition wf_response (o : gmap string JsVal) : bool :=
  wf_flags o && wf_skip o && wf_insufficient o
  && optional is_category o "category" && wf_full o.

(** The error value of an axios failure: an object whose [message], when
    it has one, is a string. *)
Definition wf_error (err : JsVal) : bool :=
  is_object_of (fun o => optional is_str o "message") err.

(** The states of the [error] cell the handlers can produce. *)
Definition wf_error_cell (e : JsVal) : bool :=
  match e with JNull | JStr _ => true | _ => false end.

(** The request [analyze] sends at line 19,
    [analyzeRace(venue, raceNumber)], with the props of the render whose
    effect started it. *)
Definition analyze_request (p : Props) : Client.Request :=
  Client.analyze_request (venue p) (raceNumber p).

(** *** Which [return] a render reaches

    The five [return] statements of the component, and the one the
    guards of lines 31, 43, 63 and 106 select. *)
Inductive Kind : Type := KLoading | KFailed | KSkip | KInsufficient | KFull.

Definition kind_of (v : View) : Kind :=
  match v with
  | Loading => KLoading
  | Failed _ => KFailed
  | SkipRecommended _ _ _ => KSkip
  | DataInsufficient _ _ => KInsufficient
  | FullAnalysis _ => KFull
  end.

Definition branch (st : State) : Kind :=
  if loading st then KLoading
  else if truthy (error st) then KFailed
  else if skip_test (result st) then KSkip
  else if insufficient_test (result st) then KInsufficient
  else KFull.

(** A trace whose failures are all axios errors. *)
Definition axios_failures (trace : list Event) : bool :=
  forallb (fun ev => match ev with
                     | Settle _ (Client.Rejected err) => wf_error err
                     | _ => true
                     end) trace.

(** [result] with [predictions.honmei] replaced, for stating what the
    page reads of that array. *)
Definition with_honmei (o preds : gmap string JsVal) (l : list JsVal) : gmap string JsVal :=
  <["predictions" := JObj (<["honmei" := JArr l]> preds)]> o.

End Page.

(* ================================================================== *)
(** ** App.jsx                                                         *)
(* ================================================================== *)

Module App.
Import Js.

Definition VENUES : list string :=
  [ "桐生"; "戸田"; "江戸川"; "平和島"; "多摩川"; "浜名湖";
    "蒲郡"; "常滑"; "津"; "三国"; "びわこ"; "住之江";
    "尼崎"; "鳴門"; "丸亀"; "児島"; "宮島"; "徳山";
    "下関"; "若松"; "芦屋"; "福岡"; "唐津"; "大村" ].

(** What [App] shows: the race picker, or the mounted page with the
    state of that instance ([analyzing] is [true] in the second case).
    Leaving the page unmounts it and drops its state. *)
Inductive Screen : Type :=
| Picker
| Analyzing (st : Page.State).

Record State : Type := { venue : string; raceNumber : N; screen : Screen }.

Definition initial : State := {| venue := "大村"; raceNumber := 12%N; screen := Picker |}.

Definition props (s : State) : Page.Props :=
  {| Page.venue := venue s; Page.raceNumber := raceNumber s |}.

(** What can happen next: the two [<select>]s and the button of the
    picker, the back button of the page, and the settlement of the
    request the mounted page is waiting for. *)
Inductive Event : Type :=
| SetVenue (v : string)
| SetRaceNumber (n : N)
| HandleAnalyze
| OnBack
| Settles (s : Client.Settled).

(** Every view of the page but the loading one has a back button. *)
Definition has_back_button (v : Outcome Page.View) : bool :=
  match v with
  | Returns Page.Loading => false
  | Returns _ => true
  | Throws _ => false
  end.

(** [None] when the event cannot happen on the current screen. *)
Definition step (s : State) (ev : Event) : option State :=
  match ev, screen s with
  | SetVenue v, Picker =>
      if existsb (String.eqb v) VENUES
      then Some {| venue := v; raceNumber := raceNumber s; screen := Picker |}
      else None
  | SetRaceNumber n, Picker =>
      if ((1 <=? n) && (n <=? 12))%N
      then Some {| venue := venue s; raceNumber := n; screen := Picker |}
      else None
  | HandleAnalyze, Picker =>
      Some {| venue := venue s; raceNumber := raceNumber s;
              screen := Analyzing (Page.analyze_begin Page.initial) |}
  | OnBack, Analyzing st =>
      if has_back_button (Page.RaceAnalysis (props s) st)
      then Some {| venue := venue s; raceNumber := raceNumber s; screen := Picker |}
      else None
  | Settles r, Analyzing st =>
      if Page.loading st
      then Some {| venue := venue s; raceNumber := raceNumber s;
                   screen := Analyzing (Page.analyze_settle r st) |}
      else None
  | _, _ => None
  end.

Fixpoint steps (s : State) (evs : list Event) : option State :=
  match evs with
  | [] => Some s
  | ev :: evs' =>
      match step s ev with
      | Some s' => steps s' evs'
      | None => None
      end
  end.

(** What the user sees. *)
Definition view (s : State) : option (Outcome Page.View) :=
  match screen s with
  | Picker => None
  | Analyzing st => Some (Page.RaceAnalysis (props s) st)
  end.

(** The requests the app sends when an event happens: pressing the
    button mounts the page, whose effect runs [analyze] once with the
    props [App] passes; the other events start no effect. *)
Definition emitted (s : State) (ev : Event) : list Client.Request :=
  match ev, screen s with
  | HandleAnalyze, Picker => [Page.analyze_request (props s)]
  | _, _ => []
  end.

Fixpoint requests (s : State) (evs : list Event) : list Client.Request :=
  match evs with
  | [] => []
  | ev :: evs' =>
      match step s ev with
      | Some s' => emitted s ev ++ requests s' evs'
      | None => []
      end
  end.

(** What the two [<select>]s can hold. *)
Definition selection_valid (s : State) : Prop :=
  In (venue s) VENUES /\ (1 <= raceNumber s <= 12)%N.

End App.

(* ================================================================== *)
(** ** kyoutei-ai-app/docs/sw.js                                       *)
(* ================================================================== *)

Module ServiceWorker.

Definition CACHE_NAME : string := "kyotei-pwa-v1".

Definition STATIC_ASSETS : list string :=
  [ "./"; "./index.html"; "./manifest.json"; "./icons/icon-192.png" ].

Record Response : Type := { status : N; content : string }.

(** [response.ok] *)
Definition ok (r : Response) : bool := ((200 <=? status r) && (status r <=? 299))%N.

Record Request : Type := { method : string; url : string }.

Definition GET (u : string) : Request := {| method := "GET"; url := u |}.

(** [fetch]: the response of the network, or [None] when the promise
    rejects (no connection).  A response with an error status is a
    response. *)
Definition Network : Type := Request -> option Response.

(** [s.endsWith(suffix)] *)
Definition endsWith (s suffix : string) : bool :=
  let n := String.length s in
  let m := String.length suffix in
  (m <=? n)%nat && String.eqb (substring (n - m) m s) suffix.

(** [cache.match(request)]: entries are keyed by URL (responses carry no
    [Vary] header) and only a GET request matches. *)
Definition cache_match (c : gmap string Response) (req : Request) : option Response :=
  if String.eqb (method req) "GET" then c !! url req else None.

(** The caches of the origin, in the order they were created. *)
Fixpoint caches_match (caches : list (string * gmap string Response)) (req : Request)
    : option Response :=
  match caches with
  | [] => None
  | (_, c) :: rest =>
      match cache_match c req with
      | Some r => Some r
      | None => caches_match rest req
      end
  end.

(** [caches.open(name)] creates the cache when there is none of that
    name. *)
Fixpoint caches_open (name : string) (caches : list (string * gmap string Response))
    : list (string * gmap string Response) :=
  match caches with
  | [] => [(name, ∅)]
  | (n, c) :: rest =>
      if String.eqb n name then (n, c) :: rest else (n, c) :: caches_open name rest
  end.

Fixpoint cache_named (name : string) (caches : list (string * gmap string Response))
    : gmap string Response :=
  match caches with
  | [] => ∅
  | (n, c) :: rest => if String.eqb n name then c else cache_named name rest
  end.

Fixpoint cache_update (name : string) (c' : gmap string Response)
    (caches : list (string * gmap string Response)) : list (string * gmap string Response) :=
  match caches with
  | [] => []
  | (n, c) :: rest =>
      if String.eqb n name then (n, c') :: rest else (n, c) :: cache_update name c' rest
  end.

(** What [addAll] accepts: a 2xx status other than 206. *)
Definition storable (r : Response) : bool := ok r && negb (status r =? 206)%N.

(** [cache.addAll(urls)]: every URL is fetched; when one fetch rejects
    or answers with a status that is not accepted, or when the same URL
    is listed twice, the promise rejects and nothing is stored, else
    every response is stored under its URL. *)
Fixpoint fetch_all (net : Network) (urls : list string) : option (list (string * Response)) :=
  match urls with
  | [] => Some []
  | u :: rest =>
      match net (GET u) with
      | Some r =>
          if storable r
          then match fetch_all net rest with
               | Some entries => Some ((u, r) :: entries)
               | None => None
               end
          else None
      | None => None
      end
  end.

Definition store (c : gmap string Response) (entries : list (string * Response))
    : gmap string Response :=
  fold_left (fun acc e => <[fst e := snd e]> acc) entries c.

Definition addAll (net : Network) (urls : list string) (c : gmap string Response)
    : option (gmap string Response) :=
  if bool_decide (NoDup urls) then option_map (store c) (fetch_all net urls) else None.

Inductive Responded : Type :=
| Respond (r : Response)
| NetworkError.

Section Worker.

(** The URL parser of the browser: [resolve] makes a relative URL
    absolute against the script, [pathname] is [new URL(u).pathname]. *)
Variable resolve : string -> string.
Variable pathname : string -> string.

(** The [install] listener: the state of the caches when the promise
    given to [waitUntil] settles, and whether it was fulfilled (the
    worker is installed only then). *)
Definition install (net : Network) (caches : list (string * gmap string Response))
    : bool * list (string * gmap string Response) :=
  let opened := caches_open CACHE_NAME caches in
  match addAll net (map resolve STATIC_ASSETS) (cache_named CACHE_NAME opened) with
  | Some c => (true, cache_update CACHE_NAME c opened)
  | None => (false, opened)
  end.

(** The [fetch] listener: what [respondWith] is given.  A promise that
    rejects, or that resolves to [undefined] (no cache entry), makes the
    request fail. *)
Definition on_fetch (net : Network) (caches : list (string * gmap string Response))
    (req : Request) : Responded :=
  if endsWith (pathname (url req)) ".json" then
    match net req with
    | Some r => Respond r
    | None =>
        match caches_match caches req with
        | Some r => Respond r
        | None => NetworkError
        end
    end
  else
    match caches_match caches req with
    | Some r => Respond r
    | None =>
        match net req with
        | Some r => Respond r
        | None => NetworkError
        end
    end.

End Worker.

End ServiceWorker.

(* ================================================================== *)
(** ** Sample inputs                                                   *)
(* ================================================================== *)

Module Sample.
Import Js.

Definition omura12 : Page.Props := {| Page.venue := "大村"; Page.raceNumber := 12%N |}.
Definition omura11 : Page.Props := {| Page.venue := "大村"; Page.raceNumber := 11%N |}.

(** 0.3, 12.5 and 0.9 as binary64 numbers. *)
Definition n0_3 : spec_float := S754_finite false 5404319552844595 (-54).
Definition n12_5 : spec_float := S754_finite false 7036874417766400 (-49).
Definition n0_9 : spec_float := S754_finite false 8106479329266893 (-53).

(** A skip verdict that also reports insufficient data. *)
Definition skip_and_insufficient : gmap string JsVal :=
  {[ "should_skip" := JBool true;
     "status" := JStr "data_insufficient";
     "stability" := JNum (num_of_Z 40);
     "expected_value" := JNum (num_of_Z (-5));
     "skip_reasons" := JArr [JStr "not enough starters"] ]}.

Definition insufficient : gmap string JsVal :=
  {[ "status" := JStr "data_insufficient";
     "message" := JStr "too few races";
     "quality_score" := JNum n0_3 ]}.

(** The same verdict without its two optional properties. *)
Definition insufficient_bare : gmap string JsVal :=
  {[ "status" := JStr "data_insufficient" ]}.

Definition ticket (combination : string) (amount : Z) : JsVal :=
  JObj {[ "combination" := JStr combination; "type" := JStr "3連単";
          "amount" := JNum (num_of_Z amount); "odds" := JNum n12_5 ]}.

Definition prediction (a b c confidence : Z) : JsVal :=
  JObj {[ "boats" := JArr [JNum (num_of_Z a); JNum (num_of_Z b); JNum (num_of_Z c)];
          "confidence" := JNum (num_of_Z confidence) ]}.

Definition full : gmap string JsVal :=
  {[ "category" := JStr "stable";
     "description" := JStr "安定";
     "stability" := JNum (num_of_Z 80);
     "expected_value" := JNum (num_of_Z (-5));
     "recommendations" :=
       JObj {[ "strategy" := JStr "本命";
               "tickets" := JArr [ticket "1-2-3" 500; ticket "1-3-2" 300;
                                  ticket "1-2-3" 500; ticket "2-1-3" 100];
               "total_investment" := JNum (num_of_Z 1400) ]};
     "predictions" :=
       JObj {[ "honmei" := JArr [prediction 1 2 3 60; prediction 1 3 2 25;
                                 prediction 2 1 3 10; prediction 3 1 2 5];
               "chuuane" := JArr [prediction 4 1 2 8; prediction 4 2 1 6] ]};
     "data_quality" :=
       JObj {[ "checks" := JArr [JStr "出走表 OK"; JStr "直前情報 OK"];
               "score" := JNum n0_9 ]} ]}.

(** A full analysis with nothing to list. *)
Definition full_empty : gmap string JsVal :=
  {[ "category" := JStr "stable";
     "description" := JStr "安定";
     "stability" := JNum (num_of_Z 80);
     "expected_value" := JNum n12_5;
     "recommendations" := JObj {[ "tickets" := JArr [] ]};
     "predictions" := JObj {[ "honmei" := JArr []; "chuuane" := JArr [] ]};
     "data_quality" := JObj {[ "checks" := JArr []; "score" := JNum n0_9 ]} ]}.

(** Only the category; nothing else is present. *)
Definition only_category (c : string) : gmap string JsVal := {[ "category" := JStr c ]}.

(** An axios failure. *)
Definition network_error : JsVal := JObj {[ "message" := JStr "Network Error" ]}.

(** A prediction without its [boats] array. *)
Definition prediction_without_boats : JsVal := JObj {[ "confidence" := JNum (num_of_Z 5) ]}.

(** A network that serves every asset but the icon. *)
Definition no_icon : ServiceWorker.Network :=
  fun req =>
    if String.eqb (ServiceWorker.url req) "./icons/icon-192.png" then None
    else Some {| ServiceWorker.status := 200; ServiceWorker.content := ServiceWorker.url req |}.

Definition online : ServiceWorker.Network :=
  fun req => Some {| ServiceWorker.status := 200; ServiceWorker.content := ServiceWorker.url req |}.

Definition offline : ServiceWorker.Network := fun _ => None.

End Sample.

(* ================================================================== *)
(** ** Properties                                                      *)
(* ================================================================== *)

Import Js.

(** *** Outcomes, lists and slices *)

Section Traverse.
Context {A B : Type} (f : A -> Outcome B).

Lemma traverse_Forall2 (l : list A) (ys : list B) :
  traverse f l = Returns ys <-> Forall2 (fun x y => f x = Returns y) l ys.
Proof.
  revert ys. induction l as [|a l IH]; intros ys; simpl.
  - split.
    + intros [= <-]. constructor.
    + intros H. inversion H. reflexivity.
  - split.
    + destruct (f a) as [b|e] eqn:Ha; simpl; [|discriminate].
      destruct (traverse f l) as [bs|e] eqn:Hl; simpl; [|discriminate].
      intros [= <-]. constructor; [exact Ha | now apply IH].
    + intros H. inversion H as [|x y l' ys' Hxy Hrest]; subst.
      rewrite Hxy. simpl. apply IH in Hrest. rewrite Hrest. reflexivity.
Qed.

Lemma traverse_total (l : list A) :
  Forall (fun x => exists y, f x = Returns y) l ->
  exists ys, traverse f l = Returns ys.
Proof.
  induction 1 as [|a l [b Hb] _ [bs Hbs]]; simpl.
  - now exists [].
  - exists (b :: bs). now rewrite Hb, Hbs.
Qed.

Lemma traverse_length (l : list A) (ys : list B) :
  traverse f l = Returns ys -> length ys = length l.
Proof.
  intros H. apply traverse_Forall2 in H.
  symmetry. exact (Forall2_length _ _ _ H).
Qed.
End Traverse.

Lemma slice_0_3 {A : Type} (l : list A) : slice 0 3 l = take 3 l.
Proof.
  unfold slice. cbn -[Z.min Z.of_nat Z.to_nat Z.sub].
  rewrite (Z.min_l 0) by lia. rewrite Z.sub_0_r.
  change (Z.to_nat 0) with 0%nat. rewrite drop_0.
  destruct (Z.min_spec 3 (Z.of_nat (length l))) as [[Hlt ->]|[Hge ->]].
  - reflexivity.
  - rewrite Nat2Z.id.
    rewrite firstn_all. symmetry. apply firstn_all2. lia.
Qed.

Lemma slice_0_3_length {A : Type} (l : list A) :
  length (slice 0 3 l) = Nat.min 3 (length l).
Proof. rewrite slice_0_3. apply length_take. Qed.

(** *** Children of the documented types *)

Lemma own_lookup (o : gmap string JsVal) (k : string) (v : JsVal) :
  o !! k = Some v -> own o k = v.
Proof. unfold own. now intros ->. Qed.

Lemma own_missing (o : gmap string JsVal) (k : string) :
  o !! k = None -> own o k = JUndefined.
Proof. unfold own. now intros ->. Qed.

Lemma child_is_str (v : JsVal) : Page.is_str v = true -> React.child v = Returns (React.primitive v).
Proof. destruct v; simpl; congruence. Qed.

Lemma child_is_num (v : JsVal) : Page.is_num v = true -> React.child v = Returns (React.primitive v).
Proof. destruct v; simpl; congruence. Qed.

Lemma child_optional (P : JsVal -> bool) (o : gmap string JsVal) (k : string) :
  (forall v, P v = true -> React.child v = Returns (React.primitive v)) ->
  Page.optional P o k = true ->
  React.child (own o k) = Returns (React.primitive (own o k)).
Proof.
  intros HP. unfold Page.optional, own.
  destruct (o !! k) as [v|]; simpl; [apply HP | reflexivity].
Qed.

Lemma toFixed_optional (o : gmap string JsVal) (k : string) (f : nat) :
  Page.optional Page.is_num o k = true ->
  toFixed_opt (own o k) f =
    Returns (match o !! k with Some (JNum x) => toFixed f x | _ => [] end).
Proof.
  unfold Page.optional, own.
  destruct (o !! k) as [[]|]; simpl; intros H; try discriminate H; reflexivity.
Qed.

Lemma percent_optional (o : gmap string JsVal) (k : string) :
  Page.optional Page.is_num o k = true ->
  Page.percent (own o k) =
    Returns (toFixed 0 (num_mul (match o !! k with Some (JNum x) => x | _ => NaN end)
                                (num_of_Z 100))).
Proof.
  unfold Page.optional, own, Page.percent.
  destruct (o !! k) as [[]|]; simpl; intros H; try discriminate H; reflexivity.
Qed.

Lemma percent_missing : Page.percent JUndefined = Returns [Lit "NaN"].
Proof. reflexivity. Qed.

(** An optional nested object is [undefined] or an object that passes the
    check. *)
Lemma optional_object (W : gmap string JsVal -> bool) (o : gmap string JsVal) (k : string) :
  Page.optional (Page.is_object_of W) o k = true ->
  (o !! k = None /\ own o k = JUndefined)
  \/ (exists n, o !! k = Some (JObj n) /\ own o k = JObj n /\ W n = true).
Proof.
  unfold Page.optional, own.
  destruct (o !! k) as [[]|]; simpl; try discriminate; eauto.
Qed.

Lemma forallb_Forall_true {A : Type} (P : A -> bool) (l : list A) :
  forallb P l = true -> Forall (fun v => P v = true) l.
Proof.
  induction l as [|a l IH]; simpl; intros H; constructor.
  - now destruct (P a).
  - apply IH. now destruct (P a).
Qed.

(** An optional array is [undefined] or a list whose elements pass. *)
Lemma optional_array (P : JsVal -> bool) (o : gmap string JsVal) (k : string) :
  Page.optional (Page.is_array_of P) o k = true ->
  (o !! k = None /\ own o k = JUndefined)
  \/ (exists l, o !! k = Some (JArr l) /\ own o k = JArr l /\ Forall (fun v => P v = true) l).
Proof.
  unfold Page.optional, own.
  destruct (o !! k) as [[]|]; simpl; try discriminate; eauto.
  intros H. right. eexists. repeat split. now apply forallb_Forall_true.
Qed.

Lemma traverse_checked {A B : Type} (f : A -> Outcome B) (P : A -> bool) (l : list A) :
  (forall x, P x = true -> exists y, f x = Returns y) ->
  Forall (fun x => P x = true) l ->
  exists ys, traverse f l = Returns ys.
Proof.
  intros Hf Hl. apply traverse_total.
  induction Hl; constructor; auto.
Qed.

(** *** Rows *)

Lemma reason_item_str (s : string) : Page.reason_item (JStr s) = Returns [Lit "• "; Lit s].
Proof. reflexivity. Qed.

Lemma ticket_row_wf (o : gmap string JsVal) :
  Page.wf_ticket o = true ->
  Page.ticket_row (JObj o) =
    Returns {| Page.combination := React.primitive (own o "combination");
               Page.type_ := Lit "(" :: React.primitive (own o "type") ++ [Lit ")"];
               Page.amount := React.primitive (own o "amount") ++ [Lit "円"];
               Page.odds := React.primitive (own o "odds") ++ [Lit "倍"];
               Page.purpose_inline :=
                 if truthy (own o "purpose")
                 then [] else React.primitive (own o "purpose");
               Page.purpose_note :=
                 if truthy (own o "purpose")
                 then Some (React.primitive (own o "purpose")) else None |}.
Proof.
  unfold Page.wf_ticket. rewrite !Bool.andb_true_iff.
  intros ((((Hc & Ht) & Ha) & Ho) & Hp).
  unfold Page.ticket_row. cbn [get bind].
  rewrite (child_optional _ _ _ child_is_str Hc). cbn [bind].
  rewrite (child_optional _ _ _ child_is_str Ht). cbn [bind].
  rewrite (child_optional _ _ _ child_is_num Ha). cbn [bind].
  rewrite (child_optional _ _ _ child_is_num Ho). cbn [bind].
  rewrite (child_optional _ _ _ child_is_str Hp). cbn [bind].
  reflexivity.
Qed.

Lemma join_numbers (l : list JsVal) (sep : string) :
  Forall (fun v => Page.is_num v = true) l ->
  join (JArr l) sep = Returns (join_text sep (map React.primitive l)).
Proof.
  intros Hl. simpl.
  assert (traverse join_element l = Returns (map React.primitive l)) as ->.
  { induction Hl as [|v l Hv _ IH]; simpl; [reflexivity|].
    destruct v; try discriminate. simpl. rewrite IH. reflexivity. }
  reflexivity.
Qed.

Lemma prediction_row_wf (o : gmap string JsVal) :
  Page.wf_prediction o = true ->
  exists l, o !! "boats" = Some (JArr l) /\
    Page.prediction_row (JObj o) =
      Returns {| Page.boats := join_text "-" (map React.primitive l);
                 Page.confidence :=
                   Lit "信頼度: " :: React.primitive (own o "confidence") ++ [Lit "%"] |}.
Proof.
  unfold Page.wf_prediction. rewrite Bool.andb_true_iff. intros [H H0].
  unfold Page.required in H.
  destruct (o !! "boats") as [[]|] eqn:Hb; simpl in H; try discriminate.
  exists l. split; [reflexivity|].
  unfold Page.prediction_row. cbn [get bind].
  rewrite (own_lookup _ _ _ Hb).
  rewrite (join_numbers l "-" (forallb_Forall_true _ _ H)). cbn [bind].
  rewrite (child_optional _ _ _ child_is_num H0). reflexivity.
Qed.

Lemma rows_return {B : Type} (f : JsVal -> Outcome B) (W : gmap string JsVal -> bool)
    (l : list JsVal) :
  (forall o, W o = true -> exists r, f (JObj o) = Returns r) ->
  Forall (fun v => Page.is_object_of W v = true) l ->
  exists rows, traverse f l = Returns rows.
Proof.
  intros Hf Hl. apply (traverse_checked f (Page.is_object_of W)); [|exact Hl].
  intros [] Hx; try discriminate. now apply Hf.
Qed.

Lemma ticket_rows_return (l : list JsVal) :
  Forall (fun v => Page.is_object_of Page.wf_ticket v = true) l ->
  exists rows, traverse Page.ticket_row l = Returns rows.
Proof.
  apply rows_return. intros o Ho. rewrite (ticket_row_wf o Ho). eauto.
Qed.

Lemma prediction_rows_return (l : list JsVal) :
  Forall (fun v => Page.is_object_of Page.wf_prediction v = true) l ->
  exists rows, traverse Page.prediction_row l = Returns rows.
Proof.
  apply rows_return. intros o Ho.
  destruct (prediction_row_wf o Ho) as (bs & _ & ->). eauto.
Qed.

Lemma Forall_take {A : Type} (P : A -> Prop) (n : nat) (l : list A) :
  Forall P l -> Forall P (take n l).
Proof.
  intros H. revert n. induction H; intros [|n]; simpl; constructor; auto.
Qed.

Lemma strings_return (f : JsVal -> Outcome text) (l : list JsVal) :
  (forall s, exists t, f (JStr s) = Returns t) ->
  Forall (fun v => Page.is_str v = true) l ->
  exists ts, traverse f l = Returns ts.
Proof.
  intros Hf. apply traverse_checked.
  intros [] Hx; try discriminate. apply Hf.
Qed.

(** *** The three nested sections of the full view *)

Lemma recommendations_section (o : gmap string JsVal) :
  Page.optional (Page.is_object_of Page.wf_recommendations) o "recommendations" = true ->
  let recs := own o "recommendations" in
  React.child (get_opt recs "strategy") = Returns (React.primitive (get_opt recs "strategy"))
  /\ React.child (get_opt recs "total_investment")
     = Returns (React.primitive (get_opt recs "total_investment"))
  /\ exists rows, map_opt (get_opt recs "tickets") Page.ticket_row = Returns rows.
Proof.
  intros H recs. subst recs.
  destruct (optional_object _ _ _ H) as [[_ ->]|(r & _ & -> & Hr)].
  - simpl. repeat split. now exists [].
  - unfold Page.wf_recommendations in Hr. rewrite !Bool.andb_true_iff in Hr.
    destruct Hr as ((Hs & Ht) & Hi). cbn [get_opt].
    split; [exact (child_optional _ _ _ child_is_str Hs)|].
    split; [exact (child_optional _ _ _ child_is_num Hi)|].
    destruct (optional_array _ _ _ Ht) as [[_ ->]|(l & _ & -> & Hl)].
    + now exists [].
    + exact (ticket_rows_return l Hl).
Qed.

Lemma predictions_section (o : gmap string JsVal) :
  Page.optional (Page.is_object_of Page.wf_predictions) o "predictions" = true ->
  let preds := own o "predictions" in
  (exists rows, slice_map_opt 0 3 (get_opt preds "honmei") Page.prediction_row = Returns rows)
  /\ (exists rows, slice_map_opt 0 3 (get_opt preds "chuuane") Page.prediction_row = Returns rows).
Proof.
  intros H preds. subst preds.
  destruct (optional_object _ _ _ H) as [[_ ->]|(r & _ & -> & Hr)].
  - simpl. split; now exists [].
  - unfold Page.wf_predictions in Hr. rewrite Bool.andb_true_iff in Hr.
    destruct Hr as (Hh & Hc). cbn [get_opt].
    split.
    + destruct (optional_array _ _ _ Hh) as [[_ ->]|(l & _ & -> & Hl)]; [now exists []|].
      cbn [slice_map_opt]. rewrite slice_0_3.
      apply prediction_rows_return. now apply Forall_take.
    + destruct (optional_array _ _ _ Hc) as [[_ ->]|(l & _ & -> & Hl)]; [now exists []|].
      cbn [slice_map_opt]. rewrite slice_0_3.
      apply prediction_rows_return. now apply Forall_take.
Qed.

Lemma data_quality_section (o : gmap string JsVal) :
  Page.optional (Page.is_object_of Page.wf_data_quality) o "data_quality" = true ->
  let dq := own o "data_quality" in
  (exists cs, map_opt (get_opt dq "checks") Page.check_item = Returns cs)
  /\ (exists q, Page.percent (get_opt dq "score") = Returns q).
Proof.
  intros H dq. subst dq.
  destruct (optional_object _ _ _ H) as [[_ ->]|(r & _ & -> & Hr)].
  - simpl. split; eauto.
  - unfold Page.wf_data_quality in Hr. rewrite Bool.andb_true_iff in Hr.
    destruct Hr as (Hc & Hs). cbn [get_opt].
    split.
    + destruct (optional_array _ _ _ Hc) as [[_ ->]|(l & _ & -> & Hl)]; [now exists []|].
      cbn [map_opt]. apply strings_return; [|exact Hl].
      intros s. now exists [Lit s].
    + rewrite (percent_optional _ _ Hs). eauto.
Qed.

(** The full view of a response whose properties have the documented
    types: every step but the icon lookup returns, and the view is built
    from these pieces. *)
Lemma full_view_wf (p : Page.Props) (o : gmap string JsVal) (key : string) :
  Page.wf_full o = true ->
  ToPropertyKey (own o "category") = Returns key ->
  exists rows honmei chuuane cs q,
    map_opt (get_opt (own o "recommendations") "tickets") Page.ticket_row = Returns rows
    /\ slice_map_opt 0 3 (get_opt (own o "predictions") "honmei") Page.prediction_row
       = Returns honmei
    /\ slice_map_opt 0 3 (get_opt (own o "predictions") "chuuane") Page.prediction_row
       = Returns chuuane
    /\ map_opt (get_opt (own o "data_quality") "checks") Page.check_item = Returns cs
    /\ Page.percent (get_opt (own o "data_quality") "score") = Returns q
    /\ Page.full_view p (JObj o) =
       let! icon := React.child_looked (lookup_table Page.categoryIcons key) in
       Returns (Page.FullAnalysis
         {| Page.heading :=
              [Lit (Page.venue p); Lit " 第"; Lit (digits (Z.of_N (Page.raceNumber p))); Lit "R"];
            Page.category_class :=
              Lit "inline-block px-4 py-2 rounded-full font-bold "
              :: Looked_to_text (lookup_table Page.categoryColors key);
            Page.category_icon := icon;
            Page.description := React.primitive (own o "description");
            Page.stability := React.primitive (own o "stability") ++ [Lit "%"];
            Page.expected_value :=
              Lit "+" :: match o !! "expected_value" with
                         | Some (JNum x) => toFixed 1 x
                         | _ => []
                         end ++ [Lit "%"];
            Page.strategy := React.primitive (get_opt (own o "recommendations") "strategy");
            Page.tickets := rows;
            Page.total_investment :=
              React.primitive (get_opt (own o "recommendations") "total_investment")
              ++ [Lit "円"];
            Page.honmeiTop3 := honmei;
            Page.chuuaneTop3 := chuuane;
            Page.checks := cs;
            Page.quality := Lit "品質スコア: " :: q ++ [Lit "%"] |}).
Proof.
  unfold Page.wf_full. rewrite !Bool.andb_true_iff.
  intros (((((Hd & Hs) & He) & Hr) & Hp) & Hq) Hkey.
  destruct (recommendations_section o Hr) as (Hstrat & Htotal & rows & Hrows).
  destruct (predictions_section o Hp) as ((honmei & Hh) & (chuuane & Hc)).
  destruct (data_quality_section o Hq) as ((cs & Hcs) & (q & Hq')).
  exists rows, honmei, chuuane, cs, q.
  repeat (split; [assumption|]).
  unfold Page.full_view. cbn [get bind].
  rewrite Hkey. cbn [bind].
  destruct (React.child_looked (lookup_table Page.categoryIcons key)) as [icon|e];
    cbn [bind]; [|reflexivity].
  rewrite (child_optional _ _ _ child_is_str Hd). cbn [bind].
  rewrite (child_optional _ _ _ child_is_num Hs). cbn [bind].
  rewrite (toFixed_optional _ _ 1 He). cbn [bind].
  rewrite Hstrat. cbn [bind]. rewrite Hrows. cbn [bind].
  rewrite Htotal. cbn [bind]. rewrite Hh. cbn [bind]. rewrite Hc. cbn [bind].
  rewrite Hcs. cbn [bind]. rewrite Hq'. cbn [bind].
  reflexivity.
Qed.

(** *** The component on the sample inputs *)

Example skip_sample :
  Page.RaceAnalysis Sample.omura12 (Page.fulfilled (JObj Sample.skip_and_insufficient))
  = Returns (Page.SkipRecommended [[Lit "• "; Lit "not enough starters"]]
               [Lit "40"; Lit "%"] [Lit "-5.0"; Lit "%"]).
Proof. reflexivity. Qed.

Example insufficient_sample :
  Page.RaceAnalysis Sample.omura12 (Page.fulfilled (JObj Sample.insufficient))
  = Returns (Page.DataInsufficient [Lit "too few races"]
               [Lit "品質スコア: "; Lit "30"; Lit "%"]).
Proof. reflexivity. Qed.

Example full_empty_sample :
  Page.RaceAnalysis Sample.omura12 (Page.fulfilled (JObj Sample.full_empty))
  = Returns (Page.FullAnalysis
      {| Page.heading := [Lit "大村"; Lit " 第"; Lit "12"; Lit "R"];
         Page.category_class :=
           [Lit "inline-block px-4 py-2 rounded-full font-bold ";
            Lit "bg-green-100 text-green-800"];
         Page.category_icon := [Lit "🟢"];
         Page.description := [Lit "安定"];
         Page.stability := [Lit "80"; Lit "%"];
         Page.expected_value := [Lit "+"; Lit "12.5"; Lit "%"];
         Page.strategy := [];
         Page.tickets := [];
         Page.total_investment := [Lit "円"];
         Page.honmeiTop3 := [];
         Page.chuuaneTop3 := [];
         Page.checks := [];
         Page.quality := [Lit "品質スコア: "; Lit "90"; Lit "%"] |}).
Proof. reflexivity. Qed.

Example full_sample_rows :
  exists v,
    Page.RaceAnalysis Sample.omura12 (Page.fulfilled (JObj Sample.full))
    = Returns (Page.FullAnalysis v)
    /\ map Page.combination (Page.tickets v)
       = [[Lit "1-2-3"]; [Lit "1-3-2"]; [Lit "1-2-3"]; [Lit "2-1-3"]]
    /\ map Page.boats (Page.honmeiTop3 v)
       = [ [Lit "1"; Lit "-"; Lit "2"; Lit "-"; Lit "3"];
           [Lit "1"; Lit "-"; Lit "3"; Lit "-"; Lit "2"];
           [Lit "2"; Lit "-"; Lit "1"; Lit "-"; Lit "3"] ]
    /\ length (Page.chuuaneTop3 v) = 2
    /\ Page.expected_value v = [Lit "+"; Lit "-5.0"; Lit "%"].
Proof. eexists. split; [reflexivity|]. repeat split. Qed.

(** *** The branches of the component *)

Lemma fulfilled_cells (data : JsVal) :
  Page.fulfilled data = {| Page.loading := false; Page.result := data; Page.error := JNull |}.
Proof. reflexivity. Qed.

Lemma render_fulfilled (p : Page.Props) (data : JsVal) :
  Page.RaceAnalysis p (Page.fulfilled data) =
    if Page.skip_test data then Page.skip_view data
    else if Page.insufficient_test data then Page.insufficient_view data
    else Page.full_view p data.
Proof. reflexivity. Qed.

Lemma skip_test_flag (o : gmap string JsVal) :
  o !! "should_skip" = Some (JBool true) \/ o !! "status" = Some (JStr "skip") ->
  Page.skip_test (JObj o) = true.
Proof.
  unfold Page.skip_test. cbn [get_opt]. unfold own.
  intros [-> | ->]; simpl; [reflexivity|apply Bool.orb_true_r].
Qed.

Lemma skip_test_unset (o : gmap string JsVal) :
  o !! "should_skip" = None \/ o !! "should_skip" = Some (JBool false) ->
  Page.skip_test (JObj o) = strict_eq_str (own o "status") "skip".
Proof.
  unfold Page.skip_test. cbn [get_opt]. unfold own at 1.
  intros [-> | ->]; reflexivity.
Qed.

Lemma skip_view_wf (o : gmap string JsVal) :
  Page.wf_skip o = true ->
  exists reasons,
    Page.skip_view (JObj o) =
      Returns (Page.SkipRecommended reasons
                 (React.primitive (own o "stability") ++ [Lit "%"])
                 (match o !! "expected_value" with
                  | Some (JNum x) => toFixed 1 x
                  | _ => []
                  end ++ [Lit "%"]))
    /\ match o !! "skip_reasons" with
       | Some (JArr l) =>
           Forall2 (fun r t => exists s, r = JStr s /\ t = [Lit "• "; Lit s]) l reasons
       | _ => reasons = []
       end.
Proof.
  unfold Page.wf_skip. rewrite !Bool.andb_true_iff. intros ((Hr & Hs) & He).
  unfold Page.skip_view. cbn [get bind].
  rewrite (child_optional _ _ _ child_is_num Hs).
  rewrite (toFixed_optional _ _ 1 He).
  destruct (optional_array _ _ _ Hr) as [[Hnone ->]|(l & Hsome & -> & Hl)].
  - exists []. rewrite Hnone. split; reflexivity.
  - assert (exists items, traverse Page.reason_item l = Returns items
              /\ Forall2 (fun r t => exists s, r = JStr s /\ t = [Lit "• "; Lit s]) l items)
      as (items & Hitems & Hrel).
    { clear -Hl. induction Hl as [|v l Hv _ (items & IH & Hrel)].
      - exists []. split; [reflexivity|constructor].
      - destruct v; try discriminate.
        exists ([Lit "• "; Lit s] :: items). split.
        + simpl. cbn [traverse] in IH. rewrite IH. reflexivity.
        + constructor; eauto. }
    exists items. rewrite Hsome. cbn [map_opt]. rewrite Hitems. split; [reflexivity|exact Hrel].
Qed.

(** C1. A response with [should_skip == true] or [status == "skip"] is
    shown as the skip recommendation whatever else it says (its [status]
    may be ["data_insufficient"]): the list of reasons (none when
    [skip_reasons] is missing), the stability and the expected value with
    one decimal.  The test of line 63 comes before the one of line 106
    and before the final [return]. *)
Theorem skip_precedence (p : Page.Props) (o : gmap string JsVal) :
  Page.wf_skip o = true ->
  o !! "should_skip" = Some (JBool true) \/ o !! "status" = Some (JStr "skip") ->
  exists reasons,
    Page.RaceAnalysis p (Page.fulfilled (JObj o)) =
      Returns (Page.SkipRecommended reasons
                 (React.primitive (own o "stability") ++ [Lit "%"])
                 (match o !! "expected_value" with
                  | Some (JNum x) => toFixed 1 x
                  | _ => []
                  end ++ [Lit "%"]))
    /\ match o !! "skip_reasons" with
       | Some (JArr l) =>
           Forall2 (fun r t => exists s, r = JStr s /\ t = [Lit "• "; Lit s]) l reasons
       | _ => reasons = []
       end.
Proof.
  intros Hwf Hskip.
  rewrite render_fulfilled, (skip_test_flag o Hskip).
  exact (skip_view_wf o Hwf).
Qed.

Lemma skip_precedence_witness :
  Page.wf_skip Sample.skip_and_insufficient = true
  /\ Sample.skip_and_insufficient !! "status" = Some (JStr "data_insufficient")
  /\ exists reasons,
       Page.RaceAnalysis Sample.omura12 (Page.fulfilled (JObj Sample.skip_and_insufficient)) =
         Returns (Page.SkipRecommended reasons [Lit "40"; Lit "%"] [Lit "-5.0"; Lit "%"])
       /\ Forall2 (fun r t => exists s, r = JStr s /\ t = [Lit "• "; Lit s])
            [JStr "not enough starters"] reasons.
Proof.
  split; [reflexivity|]. split; [reflexivity|].
  exact (skip_precedence Sample.omura12 Sample.skip_and_insufficient
           eq_refl (or_introl eq_refl)).
Defined.

Lemma insufficient_view_wf (o : gmap string JsVal) :
  Page.wf_insufficient o = true ->
  Page.insufficient_view (JObj o) =
    Returns (Page.DataInsufficient
               (match o !! "message" with Some (JStr s) => [Lit s] | _ => [] end)
               (Lit "品質スコア: "
                :: match o !! "quality_score" with
                   | Some (JNum x) => toFixed 0 (num_mul x (num_of_Z 100))
                   | _ => [Lit "NaN"]
                   end ++ [Lit "%"])).
Proof.
  unfold Page.wf_insufficient. rewrite Bool.andb_true_iff. intros (Hm & Hq).
  unfold Page.insufficient_view. cbn [get bind].
  rewrite (child_optional _ _ _ child_is_str Hm). cbn [bind].
  rewrite (percent_optional _ _ Hq). cbn [bind].
  unfold Page.optional, own in *.
  destruct (o !! "message") as [[]|]; try discriminate;
    destruct (o !! "quality_score") as [[]|]; try discriminate; reflexivity.
Qed.

(** C4, as the code has it.  A response with [status ==
    "data_insufficient"] and [should_skip] false or missing is shown as
    the data-insufficient view with its [message] and its
    [quality_score] as a percentage.  Nothing is substituted for a
    missing property: without [message] no text is shown, and without
    [quality_score] the percentage reads [NaN%]. *)
Theorem data_insufficient_view (p : Page.Props) (o : gmap string JsVal) :
  Page.wf_insufficient o = true ->
  o !! "status" = Some (JStr "data_insufficient") ->
  o !! "should_skip" = None \/ o !! "should_skip" = Some (JBool false) ->
  Page.RaceAnalysis p (Page.fulfilled (JObj o)) =
    Returns (Page.DataInsufficient
               (match o !! "message" with Some (JStr s) => [Lit s] | _ => [] end)
               (Lit "品質スコア: "
                :: match o !! "quality_score" with
                   | Some (JNum x) => toFixed 0 (num_mul x (num_of_Z 100))
                   | _ => [Lit "NaN"]
                   end ++ [Lit "%"])).
Proof.
  intros Hwf Hstatus Hskip.
  rewrite render_fulfilled, (skip_test_unset o Hskip).
  unfold Page.insufficient_test. cbn [get_opt].
  rewrite (own_lookup _ _ _ Hstatus). cbn [strict_eq_str].
  exact (insufficient_view_wf o Hwf).
Qed.

Lemma data_insufficient_view_witness :
  Page.wf_insufficient Sample.insufficient = true
  /\ Page.RaceAnalysis Sample.omura12 (Page.fulfilled (JObj Sample.insufficient)) =
       Returns (Page.DataInsufficient [Lit "too few races"]
                  [Lit "品質スコア: "; Lit "30"; Lit "%"]).
Proof.
  split; [reflexivity|].
  exact (data_insufficient_view Sample.omura12 Sample.insufficient
           eq_refl eq_refl (or_introl eq_refl)).
Defined.

(** C4 as the specification words it fails on the bare verdict
    [{status: "data_insufficient"}]: the message is empty instead of a
    generic text, and the score line is not the one a score of 0 gives. *)
Lemma data_insufficient_no_defaults :
  Page.RaceAnalysis Sample.omura12 (Page.fulfilled (JObj Sample.insufficient_bare))
    = Returns (Page.DataInsufficient [] [Lit "品質スコア: "; Lit "NaN"; Lit "%"])
  /\ Page.RaceAnalysis Sample.omura12
       (Page.fulfilled (JObj (<["quality_score" := JNum (num_of_Z 0)]> Sample.insufficient_bare)))
     = Returns (Page.DataInsufficient [] [Lit "品質スコア: "; Lit "0"; Lit "%"])
  /\ ~ (exists generic zero,
          text_string generic <> Some EmptyString
          /\ text_string zero = Some "品質スコア: 0%"
          /\ Page.RaceAnalysis Sample.omura12 (Page.fulfilled (JObj Sample.insufficient_bare))
             = Returns (Page.DataInsufficient generic zero)).
Proof.
  split; [reflexivity|]. split; [reflexivity|].
  intros (generic & zero & Hg & _ & H).
  vm_compute in H. injection H as <- _. apply Hg. reflexivity.
Qed.

(** *** Loading *)

Lemma bind_Returns {A B : Type} (m : Outcome A) (k : A -> Outcome B) (b : B) :
  bind m k = Returns b -> exists a, m = Returns a /\ k a = Returns b.
Proof. destruct m as [a|e]; simpl; [eauto|discriminate]. Qed.

Ltac unbind H :=
  repeat (apply bind_Returns in H;
          let a := fresh "a" in let Ha := fresh "Ha" in
          destruct H as (a & Ha & H)).

Lemma skip_view_not_loading (r : JsVal) : Page.skip_view r <> Returns Page.Loading.
Proof. unfold Page.skip_view. intros H. unbind H. discriminate H. Qed.

Lemma insufficient_view_not_loading (r : JsVal) :
  Page.insufficient_view r <> Returns Page.Loading.
Proof. unfold Page.insufficient_view. intros H. unbind H. discriminate H. Qed.

Lemma full_view_not_loading (p : Page.Props) (r : JsVal) :
  Page.full_view p r <> Returns Page.Loading.
Proof. unfold Page.full_view. intros H. unbind H. discriminate H. Qed.

Lemma loading_iff_flag (p : Page.Props) (st : Page.State) :
  Page.RaceAnalysis p st = Returns Page.Loading <-> Page.loading st = true.
Proof.
  unfold Page.RaceAnalysis. destruct (Page.loading st); split; try reflexivity.
  - destruct (truthy (Page.error st)).
    + intros H. unbind H. discriminate H.
    + destruct (Page.skip_test (Page.result st));
        [intros H; now apply skip_view_not_loading in H|].
      destruct (Page.insufficient_test (Page.result st));
        [intros H; now apply insufficient_view_not_loading in H|].
      intros H. now apply full_view_not_loading in H.
  - discriminate.
Qed.

Lemma starts_keep_loading (st : Page.State) (trace : list Page.Event) :
  forallb Page.is_start trace = true ->
  Page.run (Page.analyze_begin st) trace = Page.analyze_begin st.
Proof.
  unfold Page.run. induction trace as [|[n q|n s] trace IH]; simpl; intros H.
  - reflexivity.
  - exact (IH H).
  - discriminate H.
Qed.

(** C5, as the code has it.  The page shows the loading view exactly when
    its [loading] flag is set, whatever the error and the result are.
    The flag is set when the page mounts and by each start of [analyze],
    and only a settled request clears it: as long as no request of the
    mounted page has settled, the error and the result are both [null]
    and the view is the loading one. *)
Theorem loading_until_settled (p : Page.Props) :
  (forall st, Page.RaceAnalysis p st = Returns Page.Loading <-> Page.loading st = true)
  /\ (forall trace,
        forallb Page.is_start trace = true ->
        let st := Page.run Page.initial trace in
        Page.error st = JNull /\ Page.result st = JNull
        /\ Page.RaceAnalysis p st = Returns Page.Loading).
Proof.
  split; [exact (loading_iff_flag p)|].
  intros trace H st. subst st.
  destruct trace as [|[n q|n s] trace]; [now repeat split | | discriminate H].
  change (Page.run Page.initial (Page.Start n q :: trace))
    with (Page.run (Page.analyze_begin Page.initial) trace).
  rewrite (starts_keep_loading Page.initial trace H). now repeat split.
Qed.

Lemma loading_until_settled_witness :
  forallb Page.is_start [Page.Start 0 Sample.omura12] = true
  /\ Page.RaceAnalysis Sample.omura12 (Page.run Page.initial [Page.Start 0 Sample.omura12])
     = Returns Page.Loading.
Proof.
  split; [reflexivity|].
  exact (proj2 (proj2 (proj2 (loading_until_settled Sample.omura12)
                         [Page.Start 0 Sample.omura12] eq_refl))).
Defined.

(** C5 as the specification words it fails in two ways.  Once the
    request has been answered with the JSON body [null], the error and
    the response are both [null], the flag is cleared, and the render
    does not return the loading view.  And when the mounted page was
    given a second race before the first answer came in, that answer
    clears the flag: the request of the current session has produced
    neither an error nor a response, yet the page shows the answer to the
    previous one. *)
Lemma not_loading_without_answer :
  (let st := Page.run Page.initial
               [Page.Start 0 Sample.omura12; Page.Settle 0 (Client.Fulfilled JNull)] in
   Page.error st = JNull /\ Page.result st = JNull
   /\ Page.RaceAnalysis Sample.omura12 st = Throws TypeError
   /\ Page.RaceAnalysis Sample.omura12 st <> Returns Page.Loading)
  /\ (let trace := [ Page.Start 0 Sample.omura11; Page.Start 1 Sample.omura12;
                     Page.Settle 0 (Client.Fulfilled (JObj Sample.insufficient)) ] in
      Page.well_formed 0 [] trace = true
      /\ Page.last_started trace = Some 1
      /\ Page.outcome_of 1 trace = None
      /\ Page.RaceAnalysis Sample.omura12 (Page.run Page.initial trace)
         = Returns (Page.DataInsufficient [Lit "too few races"]
                      [Lit "品質スコア: "; Lit "30"; Lit "%"])
      /\ Page.RaceAnalysis Sample.omura12 (Page.run Page.initial trace)
         <> Returns Page.Loading).
Proof. repeat split; discriminate. Qed.

(** *** Failures *)

Lemma failure_message_wf (err : gmap string JsVal) :
  Page.optional Page.is_str err "message" = true ->
  exists m, m <> EmptyString
    /\ Page.failure_message (JObj err) = Returns (JStr m)
    /\ m = match err !! "message" with
           | Some (JStr s) => if String.eqb s EmptyString then Page.generic_failure else s
           | _ => Page.generic_failure
           end.
Proof.
  unfold Page.optional, Page.failure_message. cbn [get bind]. unfold own.
  destruct (err !! "message") as [[]|]; simpl; try discriminate; intros _.
  - destruct (String.eqb s EmptyString) eqn:E; simpl.
    + exists Page.generic_failure. repeat split. discriminate.
    + exists s. repeat split. intros ->. discriminate E.
  - exists Page.generic_failure. repeat split. discriminate.
Qed.

Lemma failed_state_view (p : Page.Props) (st : Page.State) (m : string) :
  m <> EmptyString ->
  Page.RaceAnalysis p (Page.setLoading false (Page.setError (JStr m) st))
    = Returns (Page.Failed [Lit m]).
Proof.
  intros Hm. unfold Page.RaceAnalysis. simpl.
  destruct (String.eqb m EmptyString) eqn:E; [|reflexivity].
  apply String.eqb_eq in E. contradiction.
Qed.

(** C6. When the request fails, the page shows the failed view with the
    error's [message], or with 分析に失敗しました when the error has no
    message (or an empty one), whatever result an earlier request left
    in the state.  From that view the back button leads to the picker,
    and starting the analysis again mounts a fresh page that is loading
    and shows whatever its own request brings. *)
Theorem failure_shown_and_recoverable (err : gmap string JsVal) :
  Page.optional Page.is_str err "message" = true ->
  let shown := match err !! "message" with
               | Some (JStr s) => if String.eqb s EmptyString then Page.generic_failure else s
               | _ => Page.generic_failure
               end in
  (forall p st,
     Page.RaceAnalysis p (Page.analyze_settle (Client.Rejected (JObj err)) st)
       = Returns (Page.Failed [Lit shown]))
  /\ (forall s st,
        App.screen s = App.Analyzing st -> Page.loading st = true ->
        exists failed,
          App.step s (App.Settles (Client.Rejected (JObj err))) = Some failed
          /\ App.view failed = Some (Returns (Page.Failed [Lit shown]))
          /\ App.steps failed [App.OnBack; App.HandleAnalyze]
             = Some {| App.venue := App.venue s; App.raceNumber := App.raceNumber s;
                       App.screen := App.Analyzing (Page.analyze_begin Page.initial) |}
          /\ forall data,
               App.steps failed
                 [App.OnBack; App.HandleAnalyze; App.Settles (Client.Fulfilled data)]
               = Some {| App.venue := App.venue s; App.raceNumber := App.raceNumber s;
                         App.screen := App.Analyzing (Page.fulfilled data) |}).
Proof.
  intros Hwf shown.
  destruct (failure_message_wf err Hwf) as (m & Hm & Hmsg & Heq).
  fold shown in Heq. subst m.
  assert (forall p st,
            Page.RaceAnalysis p (Page.analyze_settle (Client.Rejected (JObj err)) st)
            = Returns (Page.Failed [Lit shown])) as Hview.
  { intros p st. unfold Page.analyze_settle. cbn [Client.analyzeRace].
    rewrite Hmsg. now apply failed_state_view. }
  split; [exact Hview|].
  intros s st Hscreen Hloading.
  eexists. split.
  { unfold App.step. rewrite Hscreen, Hloading. reflexivity. }
  split.
  { unfold App.view. cbn [App.screen]. f_equal. apply Hview. }
  assert (App.step
            {| App.venue := App.venue s; App.raceNumber := App.raceNumber s;
               App.screen := App.Analyzing
                 (Page.analyze_settle (Client.Rejected (JObj err)) st) |} App.OnBack
          = Some {| App.venue := App.venue s; App.raceNumber := App.raceNumber s;
                    App.screen := App.Picker |}) as Hback.
  { unfold App.step. cbn [App.screen]. rewrite Hview. reflexivity. }
  split.
  - cbn [App.steps]. rewrite Hback. reflexivity.
  - intros data. cbn [App.steps]. rewrite Hback. reflexivity.
Qed.

Lemma failure_shown_and_recoverable_witness :
  Page.wf_error Sample.network_error = true
  /\ Page.RaceAnalysis Sample.omura12
       (Page.analyze_settle (Client.Rejected Sample.network_error)
          (Page.analyze_begin (Page.fulfilled (JObj Sample.full))))
     = Returns (Page.Failed [Lit "Network Error"])
  /\ Page.RaceAnalysis Sample.omura12
       (Page.analyze_settle (Client.Rejected (JObj ∅)) (Page.analyze_begin Page.initial))
     = Returns (Page.Failed [Lit "分析に失敗しました"])
  /\ App.steps App.initial
       [App.HandleAnalyze; App.Settles (Client.Rejected Sample.network_error);
        App.OnBack; App.HandleAnalyze; App.Settles (Client.Fulfilled (JObj Sample.full))]
     = Some {| App.venue := "大村"; App.raceNumber := 12%N;
               App.screen := App.Analyzing (Page.fulfilled (JObj Sample.full)) |}.
Proof.
  assert (Page.optional Page.is_str {[ "message" := JStr "Network Error" ]} "message" = true)
    as Hnet by (vm_compute; reflexivity).
  assert (Page.optional Page.is_str ∅ "message" = true)
    as Hnone by (vm_compute; reflexivity).
  split; [vm_compute; reflexivity|].
  split; [exact (proj1 (failure_shown_and_recoverable _ Hnet) Sample.omura12 _)|].
  split; [exact (proj1 (failure_shown_and_recoverable _ Hnone) Sample.omura12 _)|].
  destruct (proj2 (failure_shown_and_recoverable _ Hnet)
              {| App.venue := "大村"; App.raceNumber := 12%N;
                 App.screen := App.Analyzing (Page.analyze_begin Page.initial) |}
              (Page.analyze_begin Page.initial) eq_refl eq_refl)
    as (failed & Hstep & _ & _ & Hagain).
  cbn [App.steps]. change (App.step App.initial App.HandleAnalyze)
    with (Some {| App.venue := "大村"; App.raceNumber := 12%N;
                  App.screen := App.Analyzing (Page.analyze_begin Page.initial) |}).
  cbv beta iota. unfold Sample.network_error. rewrite Hstep.
  exact (Hagain (JObj Sample.full)).
Defined.

(** *** Overlapping requests *)

Lemma step_result (st : Page.State) (ev : Page.Event) :
  Page.result (Page.step st ev) = Page.last_fulfilled (Page.result st) [ev].
Proof.
  destruct ev as [n q|n [data|err]]; simpl; try reflexivity.
  unfold Page.analyze_settle. simpl.
  now destruct (Page.failure_message err).
Qed.

Lemma last_fulfilled_cons (d : JsVal) (ev : Page.Event) (trace : list Page.Event) :
  Page.last_fulfilled d (ev :: trace)
  = Page.last_fulfilled (Page.last_fulfilled d [ev]) trace.
Proof. destruct ev as [n q|n [data|err]]; reflexivity. Qed.

Lemma run_result (st : Page.State) (trace : list Page.Event) :
  Page.result (Page.run st trace) = Page.last_fulfilled (Page.result st) trace.
Proof.
  revert st. induction trace as [|ev trace IH]; intros st; [reflexivity|].
  change (Page.run st (ev :: trace)) with (Page.run (Page.step st ev) trace).
  rewrite IH, step_result. symmetry. apply last_fulfilled_cons.
Qed.

Lemma run_snoc (st : Page.State) (trace : list Page.Event) (ev : Page.Event) :
  Page.run st (trace ++ [ev]) = Page.step (Page.run st trace) ev.
Proof. unfold Page.run. now rewrite fold_left_app. Qed.

Lemma settle_clears_loading (s : Client.Settled) (st : Page.State) :
  Page.loading (Page.analyze_settle s st) = false.
Proof.
  destruct s as [data|err]; [reflexivity|].
  unfold Page.analyze_settle. simpl. now destruct (Page.failure_message err).
Qed.

(** C2, as the code has it.  Settlements are applied in the order they
    arrive, and nothing compares the session that sent the request with
    the current one: after any sequence of starts and settlements the
    result is the body of the request fulfilled last, whichever session
    sent it, and every settlement clears the loading flag.  In particular
    a response that arrives late replaces the result of a newer session. *)
Theorem last_settlement_wins (st : Page.State) (trace : list Page.Event) :
  Page.result (Page.run st trace) = Page.last_fulfilled (Page.result st) trace
  /\ (forall n s, Page.loading (Page.run st (trace ++ [Page.Settle n s])) = false)
  /\ (forall n data,
        Page.result (Page.run st (trace ++ [Page.Settle n (Client.Fulfilled data)])) = data).
Proof.
  split; [apply run_result|]. split.
  - intros n s. rewrite run_snoc. apply settle_clears_loading.
  - intros n data. rewrite run_snoc. reflexivity.
Qed.

(** C2 as the specification words it fails when the page, mounted for
    race 11, is given race 12 before the first answer is in, and the
    answer for race 11 arrives after the one for race 12: the trace is
    well formed, session 1 started last and was answered with [full], yet
    the page shows the answer of session 0. *)
Lemma stale_response_overwrites :
  let first := JObj Sample.skip_and_insufficient in
  let second := JObj Sample.full in
  let trace := [ Page.Start 0 Sample.omura11; Page.Start 1 Sample.omura12;
                 Page.Settle 1 (Client.Fulfilled second);
                 Page.Settle 0 (Client.Fulfilled first) ] in
  Page.well_formed 0 [] trace = true
  /\ Page.last_started trace = Some 1
  /\ Page.current_props Sample.omura11 trace = Sample.omura12
  /\ Page.outcome_of 1 trace = Some (Client.Fulfilled second)
  /\ Page.RaceAnalysis Sample.omura12 (Page.run Page.initial trace)
     = Page.RaceAnalysis Sample.omura12 (Page.fulfilled first)
  /\ Page.RaceAnalysis Sample.omura12 (Page.run Page.initial trace)
     <> Page.RaceAnalysis Sample.omura12 (Page.fulfilled second).
Proof.
  repeat split. vm_compute. discriminate.
Qed.

(** The same interleaving with a late failure: the newer session's
    answer is in the state, but the page shows the older failure. *)
Lemma stale_failure_hides_result :
  let trace := [ Page.Start 0 Sample.omura11; Page.Start 1 Sample.omura12;
                 Page.Settle 0 (Client.Rejected Sample.network_error);
                 Page.Settle 1 (Client.Fulfilled (JObj Sample.full)) ] in
  Page.well_formed 0 [] trace = true
  /\ Page.result (Page.run Page.initial trace) = JObj Sample.full
  /\ Page.RaceAnalysis Sample.omura12 (Page.run Page.initial trace)
     = Returns (Page.Failed [Lit "Network Error"]).
Proof. repeat split. Qed.

(** Inside [App] the interleaving cannot arise: while the mounted page
    is loading, the only thing that can happen is the settlement of its
    request (the loading view has no button and the picker is not
    shown). *)
Lemma app_waits_for_settlement (s s' : App.State) (st : Page.State) (ev : App.Event) :
  App.screen s = App.Analyzing st ->
  Page.loading st = true ->
  App.step s ev = Some s' ->
  exists r, ev = App.Settles r.
Proof.
  intros Hscreen Hloading. unfold App.step. rewrite Hscreen.
  destruct ev; try discriminate; [|eauto].
  unfold Page.RaceAnalysis. rewrite Hloading. discriminate.
Qed.

(** *** The full view *)

Lemma append_empty_r (s : string) : s +:+ EmptyString = s.
Proof.
  induction s as [|a s IH]; [reflexivity|].
  change (String a (s +:+ EmptyString) = String a s). now rewrite IH.
Qed.

Lemma category_key_wf (o : gmap string JsVal) :
  Page.optional Page.is_category o "category" = true ->
  exists key icon,
    ToPropertyKey (own o "category") = Returns key
    /\ React.child_looked (lookup_table Page.categoryIcons key) = Returns icon.
Proof.
  unfold Page.optional, own.
  destruct (o !! "category") as [[]|]; simpl; try discriminate.
  - intros H. exists s. unfold ToPropertyKey. simpl.
    rewrite append_empty_r.
    destruct (String.eqb s "stable") eqn:E1;
      [apply String.eqb_eq in E1; subst; eexists; split; reflexivity|].
    destruct (String.eqb s "mixed") eqn:E2;
      [apply String.eqb_eq in E2; subst; eexists; split; reflexivity|].
    destruct (String.eqb s "upset") eqn:E3;
      [apply String.eqb_eq in E3; subst; eexists; split; reflexivity|].
    discriminate H.
  - intros _. exists "undefined", []. split; reflexivity.
Qed.

Lemma full_view_returns (p : Page.Props) (o : gmap string JsVal) :
  Page.wf_full o = true ->
  Page.optional Page.is_category o "category" = true ->
  exists v, Page.full_view p (JObj o) = Returns (Page.FullAnalysis v)
    /\ map_opt (get_opt (own o "recommendations") "tickets") Page.ticket_row
       = Returns (Page.tickets v)
    /\ slice_map_opt 0 3 (get_opt (own o "predictions") "honmei") Page.prediction_row
       = Returns (Page.honmeiTop3 v)
    /\ slice_map_opt 0 3 (get_opt (own o "predictions") "chuuane") Page.prediction_row
       = Returns (Page.chuuaneTop3 v)
    /\ map_opt (get_opt (own o "data_quality") "checks") Page.check_item
       = Returns (Page.checks v)
    /\ Page.strategy v = React.primitive (get_opt (own o "recommendations") "strategy")
    /\ Page.expected_value v
       = Lit "+" :: match o !! "expected_value" with
                    | Some (JNum x) => toFixed 1 x
                    | _ => []
                    end ++ [Lit "%"].
Proof.
  intros Hwf Hcat.
  destruct (category_key_wf o Hcat) as (key & icon & Hkey & Hicon).
  destruct (full_view_wf p o key Hwf Hkey)
    as (rows & honmei & chuuane & cs & q & Hrows & Hh & Hc & Hcs & _ & Hview).
  rewrite Hicon in Hview. cbn [bind] in Hview.
  eexists. split; [exact Hview|]. cbn.
  repeat (split; [assumption || reflexivity|]). reflexivity.
Qed.

Lemma wf_response_parts (o : gmap string JsVal) :
  Page.wf_response o = true ->
  Page.wf_skip o = true /\ Page.wf_insufficient o = true
  /\ Page.optional Page.is_category o "category" = true /\ Page.wf_full o = true.
Proof.
  unfold Page.wf_response. rewrite !Bool.andb_true_iff. tauto.
Qed.

Lemma render_returns (p : Page.Props) (o : gmap string JsVal) (l : bool) (e : JsVal) :
  Page.wf_response o = true ->
  Page.wf_error_cell e = true ->
  exists v, Page.RaceAnalysis p {| Page.loading := l; Page.result := JObj o; Page.error := e |}
            = Returns v.
Proof.
  intros Hwf He. destruct (wf_response_parts o Hwf) as (Hs & Hi & Hc & Hf).
  unfold Page.RaceAnalysis. cbn [Page.loading Page.error Page.result].
  destruct l; [eauto|].
  destruct (truthy e) eqn:Ht.
  { destruct e; try discriminate. simpl. eauto. }
  destruct (Page.skip_test (JObj o)).
  { destruct (skip_view_wf o Hs) as (reasons & -> & _). eauto. }
  destruct (Page.insufficient_test (JObj o)).
  { rewrite (insufficient_view_wf o Hi). eauto. }
  destruct (full_view_returns p o Hf Hc) as (v & -> & _). eauto.
Qed.

Lemma own_insert (o : gmap string JsVal) (k : string) (v : JsVal) :
  own (<[k := v]> o) k = v.
Proof. unfold own. now rewrite lookup_insert_eq. Qed.

Lemma own_insert_ne (o : gmap string JsVal) (k k' : string) (v : JsVal) :
  k <> k' -> own (<[k := v]> o) k' = own o k'.
Proof. intros H. unfold own. now rewrite lookup_insert_ne. Qed.

Lemma get_opt_empty (k : string) : get_opt (JObj ∅) k = JUndefined.
Proof. reflexivity. Qed.

(** A missing nested object and an empty one are rendered alike. *)
Lemma missing_as_empty (p : Page.Props) (o : gmap string JsVal) (k : string) :
  In k ["recommendations"; "predictions"; "data_quality"] ->
  o !! k = None ->
  Page.RaceAnalysis p (Page.fulfilled (JObj (<[k := JObj ∅]> o)))
  = Page.RaceAnalysis p (Page.fulfilled (JObj o)).
Proof.
  intros Hk Hnone. rewrite !render_fulfilled.
  unfold Page.skip_test, Page.insufficient_test, Page.skip_view,
    Page.insufficient_view, Page.full_view.
  cbn [get get_opt bind].
  pose proof (own_missing o k Hnone) as Hown.
  destruct Hk as [<-|[<-|[<-|[]]]];
    rewrite !own_insert, !get_opt_empty, <- ?Hown;
    rewrite !own_insert_ne by discriminate;
    rewrite ?Hown; reflexivity.
Qed.

Lemma render_success (p : Page.Props) (o : gmap string JsVal) :
  Page.skip_test (JObj o) = false ->
  Page.insufficient_test (JObj o) = false ->
  Page.RaceAnalysis p (Page.fulfilled (JObj o)) = Page.full_view p (JObj o).
Proof. intros Hs Hi. now rewrite render_fulfilled, Hs, Hi. Qed.

Lemma map_opt_missing {B : Type} (f : JsVal -> Outcome B) (rows : list B) :
  map_opt JUndefined f = Returns rows -> rows = [].
Proof. now intros [= <-]. Qed.

Lemma slice_map_opt_missing {B : Type} (f : JsVal -> Outcome B) (rows : list B) :
  slice_map_opt 0 3 JUndefined f = Returns rows -> rows = [].
Proof. now intros [= <-]. Qed.

(** C3. On a response whose properties have the documented types the
    component returns a view in every state (loading or not, with or
    without an error message): nothing throws.  A missing
    [recommendations], [predictions] or [data_quality] is rendered
    exactly like an empty object, and in the full view it leaves the
    strategy, the tickets, the two prediction lists and the checks
    empty. *)
Theorem rendering_total (p : Page.Props) (o : gmap string JsVal) :
  Page.wf_response o = true ->
  (forall l e,
     Page.wf_error_cell e = true ->
     exists v,
       Page.RaceAnalysis p {| Page.loading := l; Page.result := JObj o; Page.error := e |}
       = Returns v)
  /\ (forall k,
        In k ["recommendations"; "predictions"; "data_quality"] ->
        o !! k = None ->
        Page.RaceAnalysis p (Page.fulfilled (JObj (<[k := JObj ∅]> o)))
        = Page.RaceAnalysis p (Page.fulfilled (JObj o)))
  /\ (Page.skip_test (JObj o) = false ->
      Page.insufficient_test (JObj o) = false ->
      exists v,
        Page.RaceAnalysis p (Page.fulfilled (JObj o)) = Returns (Page.FullAnalysis v)
        /\ (o !! "recommendations" = None -> Page.strategy v = [] /\ Page.tickets v = [])
        /\ (o !! "predictions" = None -> Page.honmeiTop3 v = [] /\ Page.chuuaneTop3 v = [])
        /\ (o !! "data_quality" = None -> Page.checks v = [])).
Proof.
  intros Hwf. split; [|split].
  - intros l e He. now apply render_returns.
  - intros k. apply missing_as_empty.
  - intros Hs Hi. destruct (wf_response_parts o Hwf) as (_ & _ & Hc & Hf).
    destruct (full_view_returns p o Hf Hc)
      as (v & Hv & Hrows & Hh & Hch & Hcs & Hstrat & _).
    exists v. rewrite (render_success p o Hs Hi). split; [exact Hv|].
    split; [|split]; intros Hnone; rewrite (own_missing o _ Hnone) in *;
      cbn [get_opt] in *.
    + split; [exact Hstrat|exact (map_opt_missing _ _ Hrows)].
    + split; [exact (slice_map_opt_missing _ _ Hh)|exact (slice_map_opt_missing _ _ Hch)].
    + exact (map_opt_missing _ _ Hcs).
Qed.

Lemma rendering_total_witness :
  Page.wf_response (Sample.only_category "stable") = true
  /\ Page.wf_response Sample.full = true
  /\ (exists v,
        Page.RaceAnalysis Sample.omura12 (Page.fulfilled (JObj Sample.full)) = Returns v)
  /\ (exists v,
        Page.RaceAnalysis Sample.omura12 (Page.fulfilled (JObj (Sample.only_category "stable")))
        = Returns (Page.FullAnalysis v)
        /\ Page.tickets v = [] /\ Page.honmeiTop3 v = [] /\ Page.checks v = []).
Proof.
  assert (Page.wf_response (Sample.only_category "stable") = true) as Hbare
    by (vm_compute; reflexivity).
  assert (Page.wf_response Sample.full = true) as Hfull by (vm_compute; reflexivity).
  split; [exact Hbare|]. split; [exact Hfull|]. split.
  - exact (proj1 (rendering_total Sample.omura12 Sample.full Hfull) false JNull eq_refl).
  - destruct (proj2 (proj2 (rendering_total Sample.omura12 _ Hbare)) eq_refl eq_refl)
      as (v & Hv & Hr & Hp & Hq).
    exists v. split; [exact Hv|].
    split; [exact (proj2 (Hr eq_refl))|].
    split; [exact (proj1 (Hp eq_refl))|exact (Hq eq_refl)].
Defined.

(** *** Projections *)

Lemma top3_rows (v : JsVal) (rows : list Page.PredictionRow) :
  slice_map_opt 0 3 v Page.prediction_row = Returns rows ->
  match v with
  | JArr l =>
      Forall2 (fun x r => Page.prediction_row x = Returns r) (take 3 l) rows
      /\ length rows = Nat.min 3 (length l)
  | JUndefined | JNull => rows = []
  | _ => False
  end.
Proof.
  destruct v; cbn [slice_map_opt]; try discriminate; try (now intros [= <-]).
  rewrite slice_0_3. intros H. split.
  - now apply traverse_Forall2.
  - rewrite (traverse_length _ _ _ H). apply length_take.
Qed.

Lemma prediction_rows_shape (l : list JsVal) (rows : list Page.PredictionRow) :
  Forall (fun v => Page.is_object_of Page.wf_prediction v = true) l ->
  traverse Page.prediction_row l = Returns rows ->
  Forall2 (fun x r => exists pr bs, x = JObj pr
             /\ pr !! "boats" = Some (JArr bs)
             /\ Page.prediction_row x = Returns r
             /\ Page.boats r = join_text "-" (map React.primitive bs)
             /\ Page.confidence r
                = Lit "信頼度: " :: React.primitive (own pr "confidence") ++ [Lit "%"])
    l rows.
Proof.
  intros Hl. revert rows. induction Hl as [|x l Hx _ IH]; intros rows.
  - intros [= <-]. constructor.
  - destruct x; try discriminate. cbn [traverse].
    destruct (prediction_row_wf o Hx) as (bs & Hbs & Hrow). rewrite Hrow. cbn [bind].
    destruct (traverse Page.prediction_row l) as [rs|e]; cbn [bind]; [|discriminate].
    intros [= <-]. constructor; [|now apply IH].
    exists o, bs. repeat split; [exact Hbs|exact Hrow].
Qed.

Lemma predictions_checked (o : gmap string JsVal) (k : string) (l : list JsVal) :
  Page.wf_full o = true ->
  k = "honmei" \/ k = "chuuane" ->
  get_opt (own o "predictions") k = JArr l ->
  Forall (fun v => Page.is_object_of Page.wf_prediction v = true) l.
Proof.
  unfold Page.wf_full. rewrite !Bool.andb_true_iff.
  intros (((((_ & _) & _) & _) & Hp) & _) Hk.
  destruct (optional_object _ _ _ Hp) as [[_ ->]|(r & _ & -> & Hw)]; [discriminate|].
  unfold Page.wf_predictions in Hw. rewrite Bool.andb_true_iff in Hw.
  destruct Hw as (Hh & Hc). cbn [get_opt].
  destruct Hk as [-> | ->].
  - destruct (optional_array _ _ _ Hh) as [[_ ->]|(l' & _ & -> & Hl)]; [discriminate|].
    now intros [= <-].
  - destruct (optional_array _ _ _ Hc) as [[_ ->]|(l' & _ & -> & Hl)]; [discriminate|].
    now intros [= <-].
Qed.

Lemma top3_rows_shown (o : gmap string JsVal) (k : string)
    (rows : list Page.PredictionRow) :
  Page.wf_full o = true ->
  k = "honmei" \/ k = "chuuane" ->
  slice_map_opt 0 3 (get_opt (own o "predictions") k) Page.prediction_row = Returns rows ->
  match get_opt (own o "predictions") k with
  | JArr l =>
      Forall2 (fun x r => exists pr bs, x = JObj pr
                 /\ pr !! "boats" = Some (JArr bs)
                 /\ Page.prediction_row x = Returns r
                 /\ Page.boats r = join_text "-" (map React.primitive bs)
                 /\ Page.confidence r
                    = Lit "信頼度: " :: React.primitive (own pr "confidence") ++ [Lit "%"])
        (take 3 l) rows
      /\ length rows = Nat.min 3 (length l)
  | JUndefined | JNull => rows = []
  | _ => False
  end.
Proof.
  intros Hwf Hk Hrows.
  pose proof (predictions_checked o k) as Hchecked.
  pose proof (top3_rows _ _ Hrows) as Htop.
  destruct (get_opt (own o "predictions") k); try exact Htop.
  destruct Htop as [_ Hlen]. split; [|exact Hlen].
  cbn [slice_map_opt] in Hrows. rewrite slice_0_3 in Hrows.
  apply prediction_rows_shape; [|exact Hrows].
  apply Forall_take. now apply Hchecked.
Qed.

(** C7. In the full view of a response of the documented shape, the
    rows under 本命予想 are the renderings of the first
    [min 3 (length honmei)] elements of [predictions.honmei], in their
    order: the i-th row shows the boats of the i-th element joined with
    [-] and its confidence.  There is no row when [predictions] or
    [honmei] is missing.  The rows under 中穴予想 come from
    [predictions.chuuane] in the same way. *)
Theorem top3_projection (p : Page.Props) (o : gmap string JsVal) :
  Page.wf_full o = true ->
  Page.optional Page.is_category o "category" = true ->
  Page.skip_test (JObj o) = false ->
  Page.insufficient_test (JObj o) = false ->
  exists v,
    Page.RaceAnalysis p (Page.fulfilled (JObj o)) = Returns (Page.FullAnalysis v)
    /\ match get_opt (own o "predictions") "honmei" with
       | JArr l =>
           Forall2 (fun x r => exists pr bs, x = JObj pr
                      /\ pr !! "boats" = Some (JArr bs)
                      /\ Page.prediction_row x = Returns r
                      /\ Page.boats r = join_text "-" (map React.primitive bs)
                      /\ Page.confidence r
                         = Lit "信頼度: " :: React.primitive (own pr "confidence")
                                           ++ [Lit "%"])
             (take 3 l) (Page.honmeiTop3 v)
           /\ length (Page.honmeiTop3 v) = Nat.min 3 (length l)
       | JUndefined | JNull => Page.honmeiTop3 v = []
       | _ => False
       end
    /\ match get_opt (own o "predictions") "chuuane" with
       | JArr l =>
           Forall2 (fun x r => exists pr bs, x = JObj pr
                      /\ pr !! "boats" = Some (JArr bs)
                      /\ Page.prediction_row x = Returns r
                      /\ Page.boats r = join_text "-" (map React.primitive bs)
                      /\ Page.confidence r
                         = Lit "信頼度: " :: React.primitive (own pr "confidence")
                                           ++ [Lit "%"])
             (take 3 l) (Page.chuuaneTop3 v)
           /\ length (Page.chuuaneTop3 v) = Nat.min 3 (length l)
       | JUndefined | JNull => Page.chuuaneTop3 v = []
       | _ => False
       end.
Proof.
  intros Hf Hc Hs Hi.
  destruct (full_view_returns p o Hf Hc) as (v & Hv & _ & Hh & Hch & _).
  exists v. rewrite (render_success p o Hs Hi). split; [exact Hv|].
  split.
  - exact (top3_rows_shown o "honmei" _ Hf (or_introl eq_refl) Hh).
  - exact (top3_rows_shown o "chuuane" _ Hf (or_intror eq_refl) Hch).
Qed.

Lemma rows_of_Forall2 {A B : Type} (f : A -> Outcome B) (R : A -> B -> Prop)
    (l : list A) (rows : list B) :
  (forall x r, R x r -> f x = Returns r) ->
  Forall2 R l rows -> traverse f l = Returns rows.
Proof.
  intros HR H. apply traverse_Forall2.
  induction H; constructor; auto.
Qed.

Lemma top3_projection_witness :
  Page.wf_full Sample.full = true
  /\ exists v,
       Page.RaceAnalysis Sample.omura12 (Page.fulfilled (JObj Sample.full))
       = Returns (Page.FullAnalysis v)
       /\ Page.honmeiTop3 v
          = [ {| Page.boats := [Lit "1"; Lit "-"; Lit "2"; Lit "-"; Lit "3"];
                 Page.confidence := [Lit "信頼度: "; Lit "60"; Lit "%"] |};
              {| Page.boats := [Lit "1"; Lit "-"; Lit "3"; Lit "-"; Lit "2"];
                 Page.confidence := [Lit "信頼度: "; Lit "25"; Lit "%"] |};
              {| Page.boats := [Lit "2"; Lit "-"; Lit "1"; Lit "-"; Lit "3"];
                 Page.confidence := [Lit "信頼度: "; Lit "10"; Lit "%"] |} ]
       /\ Page.chuuaneTop3 v
          = [ {| Page.boats := [Lit "4"; Lit "-"; Lit "1"; Lit "-"; Lit "2"];
                 Page.confidence := [Lit "信頼度: "; Lit "8"; Lit "%"] |};
              {| Page.boats := [Lit "4"; Lit "-"; Lit "2"; Lit "-"; Lit "1"];
                 Page.confidence := [Lit "信頼度: "; Lit "6"; Lit "%"] |} ].
Proof.
  assert (Page.wf_full Sample.full = true) as Hfull by (vm_compute; reflexivity).
  split; [exact Hfull|].
  destruct (top3_projection Sample.omura12 Sample.full Hfull eq_refl eq_refl eq_refl)
    as (v & Hv & Hh & Hc).
  exists v. split; [exact Hv|].
  assert (forall x r,
            (exists pr bs, x = JObj pr
               /\ pr !! "boats" = Some (JArr bs)
               /\ Page.prediction_row x = Returns r
               /\ Page.boats r = join_text "-" (map React.primitive bs)
               /\ Page.confidence r
                  = Lit "信頼度: " :: React.primitive (own pr "confidence") ++ [Lit "%"]) ->
            Page.prediction_row x = Returns r) as Hrow.
  { intros x r (pr & bs & _ & _ & H & _). exact H. }
  split.
  - pose proof (rows_of_Forall2 Page.prediction_row _ _ _ Hrow (proj1 Hh)) as H.
    assert (traverse Page.prediction_row
              [Sample.prediction 1 2 3 60; Sample.prediction 1 3 2 25;
               Sample.prediction 2 1 3 10]
            = Returns
                [ {| Page.boats := [Lit "1"; Lit "-"; Lit "2"; Lit "-"; Lit "3"];
                     Page.confidence := [Lit "信頼度: "; Lit "60"; Lit "%"] |};
                  {| Page.boats := [Lit "1"; Lit "-"; Lit "3"; Lit "-"; Lit "2"];
                     Page.confidence := [Lit "信頼度: "; Lit "25"; Lit "%"] |};
                  {| Page.boats := [Lit "2"; Lit "-"; Lit "1"; Lit "-"; Lit "3"];
                     Page.confidence := [Lit "信頼度: "; Lit "10"; Lit "%"] |} ]) as E
      by (vm_compute; reflexivity).
    pose proof (eq_trans (eq_sym H) E) as Heq. now injection Heq.
  - pose proof (rows_of_Forall2 Page.prediction_row _ _ _ Hrow (proj1 Hc)) as H.
    assert (traverse Page.prediction_row
              [Sample.prediction 4 1 2 8; Sample.prediction 4 2 1 6]
            = Returns
                [ {| Page.boats := [Lit "4"; Lit "-"; Lit "1"; Lit "-"; Lit "2"];
                     Page.confidence := [Lit "信頼度: "; Lit "8"; Lit "%"] |};
                  {| Page.boats := [Lit "4"; Lit "-"; Lit "2"; Lit "-"; Lit "1"];
                     Page.confidence := [Lit "信頼度: "; Lit "6"; Lit "%"] |} ]) as E
      by (vm_compute; reflexivity).
    pose proof (eq_trans (eq_sym H) E) as Heq. now injection Heq.
Defined.

Lemma ticket_rows_shape (l : list JsVal) (rows : list Page.TicketRow) :
  Forall (fun v => Page.is_object_of Page.wf_ticket v = true) l ->
  traverse Page.ticket_row l = Returns rows ->
  Forall2 (fun t r => exists ot, t = JObj ot
             /\ Page.ticket_row t = Returns r
             /\ Page.combination r = React.primitive (own ot "combination")
             /\ Page.amount r = React.primitive (own ot "amount") ++ [Lit "円"]
             /\ Page.odds r = React.primitive (own ot "odds") ++ [Lit "倍"])
    l rows.
Proof.
  intros Hl. revert rows. induction Hl as [|t l Ht _ IH]; intros rows.
  - intros [= <-]. constructor.
  - destruct t; try discriminate. cbn [traverse].
    pose proof (ticket_row_wf o Ht) as Hrow. rewrite Hrow. cbn [bind].
    destruct (traverse Page.ticket_row l) as [rs|e]; cbn [bind]; [|discriminate].
    intros [= <-]. constructor; [|now apply IH].
    exists o. repeat split. exact Hrow.
Qed.

Lemma tickets_checked (o : gmap string JsVal) (l : list JsVal) :
  Page.wf_full o = true ->
  get_opt (own o "recommendations") "tickets" = JArr l ->
  Forall (fun v => Page.is_object_of Page.wf_ticket v = true) l.
Proof.
  unfold Page.wf_full. rewrite !Bool.andb_true_iff.
  intros (((((_ & _) & _) & Hr) & _) & _).
  destruct (optional_object _ _ _ Hr) as [[_ ->]|(r & _ & -> & Hw)]; [discriminate|].
  unfold Page.wf_recommendations in Hw. rewrite !Bool.andb_true_iff in Hw.
  destruct Hw as ((_ & Ht) & _). cbn [get_opt].
  destruct (optional_array _ _ _ Ht) as [[_ ->]|(l' & _ & -> & Hl)]; [discriminate|].
  now intros [= <-].
Qed.

(** C8. In the full view of a response of the documented shape, the
    rows under 推奨買い目 correspond one to one, position by position, to
    the elements of [recommendations.tickets]: the i-th row is the
    rendering of the i-th ticket and shows its combination, amount and
    odds.  There are as many rows as tickets; nothing is sorted, dropped,
    merged or added. *)
Theorem tickets_in_order (p : Page.Props) (o : gmap string JsVal) (l : list JsVal) :
  Page.wf_full o = true ->
  Page.optional Page.is_category o "category" = true ->
  Page.skip_test (JObj o) = false ->
  Page.insufficient_test (JObj o) = false ->
  get_opt (own o "recommendations") "tickets" = JArr l ->
  exists v,
    Page.RaceAnalysis p (Page.fulfilled (JObj o)) = Returns (Page.FullAnalysis v)
    /\ length (Page.tickets v) = length l
    /\ Forall2 (fun t r => exists ot, t = JObj ot
                  /\ Page.ticket_row t = Returns r
                  /\ Page.combination r = React.primitive (own ot "combination")
                  /\ Page.amount r = React.primitive (own ot "amount") ++ [Lit "円"]
                  /\ Page.odds r = React.primitive (own ot "odds") ++ [Lit "倍"])
         l (Page.tickets v).
Proof.
  intros Hf Hc Hs Hi Hl.
  destruct (full_view_returns p o Hf Hc) as (v & Hv & Hrows & _).
  exists v. rewrite (render_success p o Hs Hi). split; [exact Hv|].
  rewrite Hl in Hrows. cbn [map_opt] in Hrows.
  split; [exact (traverse_length _ _ _ Hrows)|].
  exact (ticket_rows_shape l _ (tickets_checked o l Hf Hl) Hrows).
Qed.

Lemma tickets_in_order_witness :
  Page.wf_full Sample.full = true
  /\ exists v,
       Page.RaceAnalysis Sample.omura12 (Page.fulfilled (JObj Sample.full))
       = Returns (Page.FullAnalysis v)
       /\ length (Page.tickets v) = 4
       /\ Forall2 (fun t r => exists ot, t = JObj ot
                     /\ Page.ticket_row t = Returns r
                     /\ Page.combination r = React.primitive (own ot "combination")
                     /\ Page.amount r = React.primitive (own ot "amount") ++ [Lit "円"]
                     /\ Page.odds r = React.primitive (own ot "odds") ++ [Lit "倍"])
            [Sample.ticket "1-2-3" 500; Sample.ticket "1-3-2" 300;
             Sample.ticket "1-2-3" 500; Sample.ticket "2-1-3" 100]
            (Page.tickets v).
Proof.
  assert (Page.wf_full Sample.full = true) as Hfull by (vm_compute; reflexivity).
  split; [exact Hfull|].
  exact (tickets_in_order Sample.omura12 Sample.full _ Hfull eq_refl eq_refl eq_refl eq_refl).
Defined.

(** *** Category badge *)

Lemma table_miss (c : string) :
  c <> "stable" -> c <> "mixed" -> c <> "upset" ->
  Page.categoryIcons !! c = None /\ Page.categoryColors !! c = None.
Proof.
  intros H1 H2 H3. unfold Page.categoryIcons, Page.categoryColors.
  split; rewrite !lookup_insert_ne by congruence; now apply lookup_singleton_ne.
Qed.

Lemma inherited_not_proto (c : string) :
  c <> "__proto__" ->
  inherited c
  = if existsb (String.eqb c) object_prototype_methods then LInheritedFn c else LUndefined.
Proof.
  intros H. unfold inherited.
  destruct (String.eqb c "__proto__") eqn:E; [|reflexivity].
  apply String.eqb_eq in E. contradiction.
Qed.

(** C9, as the code has it.  The two tables are fixed: stable gives 🟢
    and the green classes, mixed 🟡 and the yellow ones, upset 🔴 and the
    red ones, and no other key is in them.  For a response that reaches
    the full view and whose category, as a property key, is not
    [__proto__], rendering returns: a category of the tables gets its
    icon and classes, any other one gets no icon and none of the
    category classes (in their place the class attribute carries the
    word [undefined], or the text of the function for the name of a
    method inherited from [Object.prototype]). *)
Theorem category_presentation (p : Page.Props) (o : gmap string JsVal) (c : string) :
  Page.wf_full o = true ->
  ToPropertyKey (own o "category") = Returns c ->
  c <> "__proto__" ->
  Page.skip_test (JObj o) = false ->
  Page.insufficient_test (JObj o) = false ->
  (exists v,
     Page.RaceAnalysis p (Page.fulfilled (JObj o)) = Returns (Page.FullAnalysis v)
     /\ Page.category_icon v
        = match Page.categoryIcons !! c with Some icon => [Lit icon] | None => [] end
     /\ Page.category_class v
        = [ Lit "inline-block px-4 py-2 rounded-full font-bold ";
            match Page.categoryColors !! c with
            | Some classes => Lit classes
            | None =>
                if existsb (String.eqb c) object_prototype_methods
                then FnSrc c else Lit "undefined"
            end ])
  /\ (Page.categoryIcons !! "stable" = Some "🟢"
      /\ Page.categoryColors !! "stable" = Some "bg-green-100 text-green-800")
  /\ (Page.categoryIcons !! "mixed" = Some "🟡"
      /\ Page.categoryColors !! "mixed" = Some "bg-yellow-100 text-yellow-800")
  /\ (Page.categoryIcons !! "upset" = Some "🔴"
      /\ Page.categoryColors !! "upset" = Some "bg-red-100 text-red-800")
  /\ (c <> "stable" -> c <> "mixed" -> c <> "upset" ->
      Page.categoryIcons !! c = None /\ Page.categoryColors !! c = None).
Proof.
  intros Hf Hkey Hproto Hs Hi.
  split; [|repeat split; try reflexivity; now apply table_miss].
  destruct (full_view_wf p o c Hf Hkey)
    as (rows & honmei & chuuane & cs & q & _ & _ & _ & _ & _ & Hview).
  rewrite (render_success p o Hs Hi), Hview.
  unfold lookup_table. rewrite (inherited_not_proto c Hproto).
  destruct (Page.categoryIcons !! c) as [icon|], (Page.categoryColors !! c) as [color|],
    (existsb (String.eqb c) object_prototype_methods);
    cbn [React.child_looked bind]; eexists; split; try reflexivity; split; reflexivity.
Qed.

Lemma category_presentation_witness :
  Page.wf_full (Sample.only_category "unknown") = true
  /\ Page.wf_full (Sample.only_category "constructor") = true
  /\ (exists v,
        Page.RaceAnalysis Sample.omura12
          (Page.fulfilled (JObj (Sample.only_category "unknown")))
        = Returns (Page.FullAnalysis v)
        /\ Page.category_icon v = []
        /\ Page.category_class v
           = [Lit "inline-block px-4 py-2 rounded-full font-bold "; Lit "undefined"])
  /\ (exists v,
        Page.RaceAnalysis Sample.omura12
          (Page.fulfilled (JObj (Sample.only_category "constructor")))
        = Returns (Page.FullAnalysis v)
        /\ Page.category_icon v = []
        /\ Page.category_class v
           = [Lit "inline-block px-4 py-2 rounded-full font-bold "; FnSrc "constructor"]).
Proof.
  assert (Page.wf_full (Sample.only_category "unknown") = true) as Hwf
    by (vm_compute; reflexivity).
  assert (Page.wf_full (Sample.only_category "constructor") = true) as Hwf'
    by (vm_compute; reflexivity).
  assert ("unknown" <> "__proto__") as Hne by discriminate.
  assert ("constructor" <> "__proto__") as Hne' by discriminate.
  split; [exact Hwf|]. split; [exact Hwf'|]. split.
  - exact (proj1 (category_presentation Sample.omura12 (Sample.only_category "unknown")
                    "unknown" Hwf eq_refl Hne eq_refl eq_refl)).
  - exact (proj1 (category_presentation Sample.omura12 (Sample.only_category "constructor")
                    "constructor" Hwf' eq_refl Hne' eq_refl eq_refl)).
Defined.

(** C9 as the specification words it fails on the category
    ["__proto__"]: the icon lookup finds [Object.prototype], which React
    refuses as a child, and the whole view fails. *)
Lemma proto_category_throws :
  Page.wf_full (Sample.only_category "__proto__") = true
  /\ Page.skip_test (JObj (Sample.only_category "__proto__")) = false
  /\ Page.insufficient_test (JObj (Sample.only_category "__proto__")) = false
  /\ lookup_table Page.categoryIcons "__proto__" = LPrototype
  /\ Page.RaceAnalysis Sample.omura12
       (Page.fulfilled (JObj (Sample.only_category "__proto__")))
     = Throws InvalidChild
  /\ ~ (exists v,
          Page.RaceAnalysis Sample.omura12
            (Page.fulfilled (JObj (Sample.only_category "__proto__")))
          = Returns v).
Proof.
  repeat split. intros (v & H). vm_compute in H. discriminate H.
Qed.

(** *** Expected value *)

(** C10. The full view writes a literal [+] before the expected value
    with one decimal, whatever its sign, so that -5 reads [+-5.0%]; the
    skip view writes the same number without any prefix, [-5.0%]. *)
Theorem expected_value_sign (p : Page.Props) (x : spec_float) :
  (forall o,
     Page.wf_full o = true ->
     Page.optional Page.is_category o "category" = true ->
     o !! "expected_value" = Some (JNum x) ->
     Page.skip_test (JObj o) = false ->
     Page.insufficient_test (JObj o) = false ->
     exists v,
       Page.RaceAnalysis p (Page.fulfilled (JObj o)) = Returns (Page.FullAnalysis v)
       /\ Page.expected_value v = Lit "+" :: toFixed 1 x ++ [Lit "%"])
  /\ (forall o,
        Page.wf_skip o = true ->
        o !! "expected_value" = Some (JNum x) ->
        Page.skip_test (JObj o) = true ->
        exists reasons stab,
          Page.RaceAnalysis p (Page.fulfilled (JObj o))
          = Returns (Page.SkipRecommended reasons stab (toFixed 1 x ++ [Lit "%"])))
  /\ text_string (Lit "+" :: toFixed 1 (num_of_Z (-5)) ++ [Lit "%"]) = Some "+-5.0%"
  /\ text_string (toFixed 1 (num_of_Z (-5)) ++ [Lit "%"]) = Some "-5.0%".
Proof.
  split; [|split; [|split; reflexivity]].
  - intros o Hf Hc He Hs Hi.
    destruct (full_view_returns p o Hf Hc) as (v & Hv & _ & _ & _ & _ & _ & Hev).
    exists v. rewrite (render_success p o Hs Hi). split; [exact Hv|].
    now rewrite Hev, He.
  - intros o Hwf He Hs.
    destruct (skip_view_wf o Hwf) as (reasons & Hview & _).
    rewrite He in Hview.
    exists reasons, (React.primitive (own o "stability") ++ [Lit "%"]).
    now rewrite render_fulfilled, Hs.
Qed.

Lemma expected_value_sign_witness :
  Page.wf_full Sample.full = true
  /\ Page.wf_skip Sample.skip_and_insufficient = true
  /\ (exists v,
        Page.RaceAnalysis Sample.omura12 (Page.fulfilled (JObj Sample.full))
        = Returns (Page.FullAnalysis v)
        /\ text_string (Page.expected_value v) = Some "+-5.0%")
  /\ (exists reasons stab,
        Page.RaceAnalysis Sample.omura12 (Page.fulfilled (JObj Sample.skip_and_insufficient))
        = Returns (Page.SkipRecommended reasons stab [Lit "-5.0"; Lit "%"])).
Proof.
  assert (Page.wf_full Sample.full = true) as Hfull by (vm_compute; reflexivity).
  assert (Page.wf_skip Sample.skip_and_insufficient = true) as Hskip
    by (vm_compute; reflexivity).
  split; [exact Hfull|]. split; [exact Hskip|]. split.
  - destruct (proj1 (expected_value_sign Sample.omura12 (num_of_Z (-5)))
                Sample.full Hfull eq_refl eq_refl eq_refl eq_refl) as (v & Hv & Hev).
    exists v. split; [exact Hv|]. rewrite Hev. reflexivity.
  - exact (proj1 (proj2 (expected_value_sign Sample.omura12 (num_of_Z (-5))))
             Sample.skip_and_insufficient Hskip eq_refl eq_refl).
Defined.

(* ================================================================== *)
(** ** Further properties of the page                                  *)
(* ================================================================== *)

Lemma skip_view_kind (r : JsVal) (v : Page.View) :
  Page.skip_view r = Returns v -> Page.kind_of v = Page.KSkip.
Proof. unfold Page.skip_view. intros H. unbind H. now injection H as <-. Qed.

Lemma insufficient_view_kind (r : JsVal) (v : Page.View) :
  Page.insufficient_view r = Returns v -> Page.kind_of v = Page.KInsufficient.
Proof. unfold Page.insufficient_view. intros H. unbind H. now injection H as <-. Qed.

Lemma full_view_kind (p : Page.Props) (r : JsVal) (v : Page.View) :
  Page.full_view p r = Returns v -> Page.kind_of v = Page.KFull.
Proof. unfold Page.full_view. intros H. unbind H. now injection H as <-. Qed.

(** X1. Which of the five views a render returns is decided by the flags
    alone, in the order loading, error, skip, data-insufficient, full:
    the loading flag, the truthiness of the error, the truthiness of
    [should_skip] (of any type) or [status === 'skip'], then [status ===
    'data_insufficient'].  Nothing else in the payload can change the
    kind of view; it can only make the render throw. *)
Theorem view_kind_from_flags (p : Page.Props) (st : Page.State) (v : Page.View) :
  Page.RaceAnalysis p st = Returns v ->
  Page.kind_of v = Page.branch st.
Proof.
  unfold Page.RaceAnalysis, Page.branch.
  destruct (Page.loading st); [now intros [= <-]|].
  destruct (truthy (Page.error st)).
  { intros H. unbind H. now injection H as <-. }
  destruct (Page.skip_test (Page.result st)); [apply skip_view_kind|].
  destruct (Page.insufficient_test (Page.result st)); [apply insufficient_view_kind|].
  apply full_view_kind.
Qed.

Lemma view_kind_from_flags_witness :
  let o : gmap string JsVal :=
    {[ "should_skip" := JStr "false"; "status" := JStr "data_insufficient" ]} in
  Page.RaceAnalysis Sample.omura12 (Page.fulfilled (JObj o))
  = Returns (Page.SkipRecommended [] [Lit "%"] [Lit "%"])
  /\ Page.branch (Page.fulfilled (JObj o)) = Page.KSkip.
Proof.
  intros o.
  assert (Page.RaceAnalysis Sample.omura12 (Page.fulfilled (JObj o))
          = Returns (Page.SkipRecommended [] [Lit "%"] [Lit "%"])) as H
    by (vm_compute; reflexivity).
  split; [exact H|].
  symmetry. exact (view_kind_from_flags _ _ _ H).
Defined.

(** X2. A body that is not an object is not an error for the page: a
    string (an HTML page, the empty body), a number, a boolean or an
    array is shown like the empty object, as a full analysis with every
    field blank and the quality line [NaN%].  Only [null] and
    [undefined] make the render throw. *)
Theorem non_object_body (p : Page.Props) (body : JsVal) :
  match body with
  | JUndefined | JNull => Page.RaceAnalysis p (Page.fulfilled body) = Throws TypeError
  | JObj _ => True
  | _ =>
      Page.RaceAnalysis p (Page.fulfilled body)
      = Returns (Page.FullAnalysis
          {| Page.heading :=
               [Lit (Page.venue p); Lit " 第"; Lit (digits (Z.of_N (Page.raceNumber p)));
                Lit "R"];
             Page.category_class :=
               [Lit "inline-block px-4 py-2 rounded-full font-bold "; Lit "undefined"];
             Page.category_icon := [];
             Page.description := [];
             Page.stability := [Lit "%"];
             Page.expected_value := [Lit "+"; Lit "%"];
             Page.strategy := [];
             Page.tickets := [];
             Page.total_investment := [Lit "円"];
             Page.honmeiTop3 := [];
             Page.chuuaneTop3 := [];
             Page.checks := [];
             Page.quality := [Lit "品質スコア: "; Lit "NaN"; Lit "%"] |})
  end
  /\ Page.RaceAnalysis p (Page.fulfilled (JStr EmptyString))
     = Page.RaceAnalysis p (Page.fulfilled (JObj ∅)).
Proof. split; [destruct body; reflexivity|reflexivity]. Qed.

Lemma failure_message_truthy (err m : JsVal) :
  Page.failure_message err = Returns m -> truthy m = true.
Proof.
  unfold Page.failure_message. intros H. unbind H. injection H as <-.
  destruct (truthy a) eqn:E; [exact E|reflexivity].
Qed.

(** X3. Analysing again forgets the previous analysis: when a request is
    started and settles before anything else happens, the view does not
    depend on the state the page was in before, for a fulfilled request
    and for a request rejected with any error value other than [null] or
    [undefined]. *)
Theorem reanalysis_forgets (p : Page.Props) (before before' : Page.State)
    (s : Client.Settled) :
  match s with
  | Client.Rejected JUndefined | Client.Rejected JNull => False
  | _ => True
  end ->
  Page.RaceAnalysis p (Page.analyze_settle s (Page.analyze_begin before))
  = Page.RaceAnalysis p (Page.analyze_settle s (Page.analyze_begin before')).
Proof.
  destruct s as [data|err]; intros Hs; [reflexivity|].
  unfold Page.analyze_settle. cbn [Client.analyzeRace].
  destruct (Page.failure_message err) as [m|e] eqn:Hm.
  - unfold Page.RaceAnalysis. simpl. now rewrite (failure_message_truthy err m Hm).
  - destruct err; try contradiction; discriminate Hm.
Qed.

Lemma reanalysis_forgets_witness :
  Page.RaceAnalysis Sample.omura12
    (Page.analyze_settle (Client.Rejected Sample.network_error)
       (Page.analyze_begin (Page.fulfilled (JObj Sample.full))))
  = Page.RaceAnalysis Sample.omura12
      (Page.analyze_settle (Client.Rejected Sample.network_error)
         (Page.analyze_begin Page.initial)).
Proof.
  exact (reanalysis_forgets Sample.omura12 (Page.fulfilled (JObj Sample.full)) Page.initial
           (Client.Rejected Sample.network_error) I).
Defined.

Lemma step_error_cell (st : Page.State) (ev : Page.Event) :
  Page.axios_failures [ev] = true ->
  (Page.error st = JNull
   \/ exists m, Page.error st = JStr m /\ m <> EmptyString) ->
  Page.error (Page.step st ev) = JNull
  \/ exists m, Page.error (Page.step st ev) = JStr m /\ m <> EmptyString.
Proof.
  intros Hev Hst. destruct ev as [n q|n [data|err]]; simpl.
  - now left.
  - exact Hst.
  - simpl in Hev. rewrite Bool.andb_true_r in Hev.
    destruct err; try discriminate Hev.
    destruct (failure_message_wf o Hev) as (m & Hm & Hmsg & _).
    unfold Page.analyze_settle. cbn [Client.analyzeRace]. rewrite Hmsg.
    right. exists m. now split.
Qed.

(** X4. As long as every failure is an axios error (an object whose
    [message], if any, is a string), the error cell is [null] or a
    non-empty string after any sequence of starts and settlements, in
    any interleaving; so once loading is over, a set error is shown as
    the failed view with exactly that text, never with an empty one. *)
Theorem error_cell_invariant (p : Page.Props) (trace : list Page.Event) :
  Page.axios_failures trace = true ->
  let st := Page.run Page.initial trace in
  Page.error st = JNull
  \/ exists m, Page.error st = JStr m /\ m <> EmptyString
       /\ (Page.loading st = false ->
           Page.RaceAnalysis p st = Returns (Page.Failed [Lit m])).
Proof.
  intros Htrace st.
  assert (Page.error st = JNull \/ exists m, Page.error st = JStr m /\ m <> EmptyString)
    as [Hnull|(m & Hm & Hne)].
  { subst st. unfold Page.run.
    assert (Page.error Page.initial = JNull
            \/ exists m, Page.error Page.initial = JStr m /\ m <> EmptyString) as Hinit
      by now left.
    revert Htrace Hinit. generalize Page.initial.
    induction trace as [|ev trace IH]; intros st0 Htrace Hinit; [exact Hinit|].
    unfold Page.axios_failures in Htrace. cbn [forallb] in Htrace.
    apply Bool.andb_true_iff in Htrace as [Hev Hrest].
    cbn [fold_left]. apply IH; [exact Hrest|].
    apply step_error_cell; [|exact Hinit].
    unfold Page.axios_failures. cbn [forallb]. now rewrite Hev. }
  - now left.
  - right. exists m. repeat split; try assumption.
    intros Hl. unfold Page.RaceAnalysis. rewrite Hl, Hm. simpl.
    destruct (String.eqb m EmptyString) eqn:E; [|reflexivity].
    apply String.eqb_eq in E. contradiction.
Qed.

Lemma error_cell_invariant_witness :
  let trace := [ Page.Start 0 Sample.omura11; Page.Start 1 Sample.omura12;
                 Page.Settle 1 (Client.Fulfilled (JObj Sample.full));
                 Page.Settle 0 (Client.Rejected (JObj ∅)) ] in
  Page.axios_failures trace = true
  /\ (Page.error (Page.run Page.initial trace) = JNull
      \/ exists m, Page.error (Page.run Page.initial trace) = JStr m /\ m <> EmptyString
           /\ (Page.loading (Page.run Page.initial trace) = false ->
               Page.RaceAnalysis Sample.omura12 (Page.run Page.initial trace)
               = Returns (Page.Failed [Lit m]))).
Proof.
  intros trace.
  assert (Page.axios_failures trace = true) as H by (vm_compute; reflexivity).
  split; [exact H|].
  exact (error_cell_invariant Sample.omura12 trace H).
Defined.

(** X5. Of [predictions.honmei] the page reads the first three elements
    and nothing else: two responses that differ only in that array, and
    whose arrays agree on their first three elements, are rendered alike
    in every respect (same view, or the same failure).  Whatever stands
    at position four or later, even a malformed entry, is never
    looked at. *)
Theorem only_first_three_read (p : Page.Props) (o preds : gmap string JsVal)
    (l l' : list JsVal) :
  take 3 l = take 3 l' ->
  Page.RaceAnalysis p (Page.fulfilled (JObj (Page.with_honmei o preds l)))
  = Page.RaceAnalysis p (Page.fulfilled (JObj (Page.with_honmei o preds l'))).
Proof.
  intros H. rewrite !render_fulfilled.
  unfold Page.with_honmei, Page.skip_test, Page.insufficient_test, Page.skip_view,
    Page.insufficient_view, Page.full_view.
  cbn [get get_opt bind].
  rewrite !own_insert. cbn [get_opt].
  rewrite !own_insert.
  rewrite !(own_insert_ne _ "predictions") by discriminate.
  rewrite !(own_insert_ne _ "honmei") by discriminate.
  cbn [slice_map_opt]. rewrite !slice_0_3, H. reflexivity.
Qed.

Lemma only_first_three_read_witness :
  let three := [Sample.prediction 1 2 3 60; Sample.prediction 1 3 2 25;
                Sample.prediction 2 1 3 10] in
  take 3 (three ++ [Sample.prediction_without_boats; JNull]) = take 3 three
  /\ Page.RaceAnalysis Sample.omura12
       (Page.fulfilled (JObj (Page.with_honmei Sample.full ∅
                                (three ++ [Sample.prediction_without_boats; JNull]))))
     = Page.RaceAnalysis Sample.omura12
         (Page.fulfilled (JObj (Page.with_honmei Sample.full ∅ three))).
Proof.
  intros three. split; [reflexivity|].
  exact (only_first_three_read Sample.omura12 Sample.full ∅ _ three eq_refl).
Defined.

Lemma prediction_without_boats_throws (pr : gmap string JsVal) :
  pr !! "boats" = None -> Page.prediction_row (JObj pr) = Throws TypeError.
Proof.
  intros H. unfold Page.prediction_row. cbn [get bind].
  now rewrite (own_missing pr "boats" H).
Qed.

(** X6. A malformed entry among the first three is fatal: when the
    response reaches the full view and one of the first three elements
    of [predictions.honmei] is an object without [boats], the render
    returns no view at all (it throws), whatever the rest of the
    response is. *)
Theorem prediction_without_boats_fatal (p : Page.Props) (o pr : gmap string JsVal)
    (l : list JsVal) (i : nat) :
  Page.skip_test (JObj o) = false ->
  Page.insufficient_test (JObj o) = false ->
  get_opt (own o "predictions") "honmei" = JArr l ->
  i < 3 ->
  l !! i = Some (JObj pr) ->
  pr !! "boats" = None ->
  forall v, Page.RaceAnalysis p (Page.fulfilled (JObj o)) <> Returns v.
Proof.
  intros Hs Hi Hl Hlt Hi' Hb v H.
  rewrite (render_success p o Hs Hi) in H.
  unfold Page.full_view in H. cbn [get bind] in H. rewrite Hl in H.
  unbind H.
  match goal with
  | Hh : slice_map_opt 0 3 (JArr l) Page.prediction_row = Returns ?rows |- _ =>
      cbn [slice_map_opt] in Hh; rewrite slice_0_3 in Hh;
      apply traverse_Forall2 in Hh;
      destruct (Forall2_lookup_l _ _ _ i (JObj pr) Hh) as (r & _ & Hr);
        [now rewrite lookup_take_lt|];
      rewrite (prediction_without_boats_throws pr Hb) in Hr; discriminate Hr
  end.
Qed.

Lemma prediction_without_boats_fatal_witness :
  let o := Page.with_honmei Sample.full ∅
             [Sample.prediction 1 2 3 60; Sample.prediction_without_boats] in
  Page.skip_test (JObj o) = false
  /\ Page.RaceAnalysis Sample.omura12 (Page.fulfilled (JObj o)) = Throws TypeError
  /\ forall v, Page.RaceAnalysis Sample.omura12 (Page.fulfilled (JObj o)) <> Returns v.
Proof.
  intros o. split; [reflexivity|]. split; [vm_compute; reflexivity|].
  assert (1 < 3) as Hlt by lia.
  exact (prediction_without_boats_fatal Sample.omura12 o {[ "confidence" := JNum (num_of_Z 5) ]}
           [Sample.prediction 1 2 3 60; Sample.prediction_without_boats] 1
           eq_refl eq_refl eq_refl Hlt eq_refl eq_refl).
Defined.

(* ================================================================== *)
(** ** Further properties of the app                                   *)
(* ================================================================== *)

Lemma step_selection (s s' : App.State) (ev : App.Event) :
  App.step s ev = Some s' -> App.selection_valid s -> App.selection_valid s'.
Proof.
  unfold App.step, App.selection_valid.
  destruct ev as [v|n| | |r], (App.screen s) as [|st]; try discriminate.
  - destruct (existsb (String.eqb v) App.VENUES) eqn:E; [|discriminate].
    intros [= <-] [_ Hr]. cbn [App.venue App.raceNumber]. split; [|exact Hr].
    apply existsb_exists in E as (x & Hin & Hx).
    apply String.eqb_eq in Hx. now subst.
  - destruct ((1 <=? n)%N && (n <=? 12)%N) eqn:E; [|discriminate].
    intros [= <-] [Hv _]. cbn [App.venue App.raceNumber]. split; [exact Hv|].
    apply Bool.andb_true_iff in E as [E1 E2].
    apply N.leb_le in E1, E2. lia.
  - now intros [= <-].
  - destruct (App.has_back_button _); [|discriminate]. now intros [= <-].
  - destruct (Page.loading st); [|discriminate]. now intros [= <-].
Qed.

Lemma emitted_valid (s : App.State) (ev : App.Event) :
  App.selection_valid s ->
  Forall (fun r => Client.method r = "POST"
                   /\ Client.path r = "/api/v5/analyze"
                   /\ exists v n, In v App.VENUES /\ (1 <= n <= 12)%N
                        /\ Client.body r
                           = {[ "venue" := JStr v;
                                "race_number" := JNum (num_of_Z (Z.of_N n)) ]})
    (App.emitted s ev).
Proof.
  intros [Hv Hn]. unfold App.emitted.
  destruct ev, (App.screen s); try constructor; [|constructor].
  split; [reflexivity|]. split; [reflexivity|].
  exists (App.venue s), (App.raceNumber s). now repeat split.
Qed.

Lemma requests_valid_from (s s' : App.State) (evs : list App.Event) :
  App.selection_valid s ->
  App.steps s evs = Some s' ->
  App.selection_valid s'
  /\ Forall (fun r => Client.method r = "POST"
                      /\ Client.path r = "/api/v5/analyze"
                      /\ exists v n, In v App.VENUES /\ (1 <= n <= 12)%N
                           /\ Client.body r
                              = {[ "venue" := JStr v;
                                   "race_number" := JNum (num_of_Z (Z.of_N n)) ]})
       (App.requests s evs).
Proof.
  revert s. induction evs as [|ev evs IH]; intros s Hs; cbn [App.steps App.requests].
  - intros [= <-]. split; [exact Hs|constructor].
  - destruct (App.step s ev) as [s1|] eqn:Hstep; [|discriminate].
    intros Hrun.
    destruct (IH s1 (step_selection s s1 ev Hstep Hs) Hrun) as [Hfinal Hreqs].
    split; [exact Hfinal|].
    apply Forall_app. split; [now apply emitted_valid|exact Hreqs].
Qed.

(** X7. Whatever the user does, the selection stays one of the 24 venues
    and a race from 1 to 12, and every request the app sends is a POST
    to [/api/v5/analyze] whose body has exactly the two properties
    [venue], such a venue, and [race_number], such a race number. *)
Theorem requests_carry_valid_selection (evs : list App.Event) (s : App.State) :
  App.steps App.initial evs = Some s ->
  In (App.venue s) App.VENUES /\ (1 <= App.raceNumber s <= 12)%N
  /\ Forall (fun r => Client.method r = "POST"
                      /\ Client.path r = "/api/v5/analyze"
                      /\ exists v n, In v App.VENUES /\ (1 <= n <= 12)%N
                           /\ Client.body r
                              = {[ "venue" := JStr v;
                                   "race_number" := JNum (num_of_Z (Z.of_N n)) ]})
       (App.requests App.initial evs).
Proof.
  intros Hrun.
  assert (App.selection_valid App.initial) as Hinit.
  { split; [|cbn; lia]. cbn. repeat (try (left; reflexivity); right). }
  destruct (requests_valid_from App.initial s evs Hinit Hrun) as [[Hv Hn] Hreqs].
  now repeat split.
Qed.

Lemma requests_carry_valid_selection_witness :
  let evs := [App.SetVenue "桐生"; App.SetRaceNumber 3; App.HandleAnalyze] in
  App.requests App.initial evs
  = [ {| Client.method := "POST";
         Client.path := "/api/v5/analyze";
         Client.body :=
           {[ "venue" := JStr "桐生";
              "race_number" := JNum (S754_finite false 6755399441055744 (-51)) ]} |} ]
  /\ Number_toString (S754_finite false 6755399441055744 (-51)) = [Lit "3"]
  /\ exists s,
       App.steps App.initial evs = Some s
       /\ In (App.venue s) App.VENUES /\ (1 <= App.raceNumber s <= 12)%N
       /\ Forall (fun r => Client.method r = "POST"
                           /\ Client.path r = "/api/v5/analyze"
                           /\ exists v n, In v App.VENUES /\ (1 <= n <= 12)%N
                                /\ Client.body r
                                   = {[ "venue" := JStr v;
                                        "race_number" := JNum (num_of_Z (Z.of_N n)) ]})
            (App.requests App.initial evs).
Proof.
  intros evs. split; [vm_compute; reflexivity|]. split; [reflexivity|].
  eexists. split; [reflexivity|].
  exact (requests_carry_valid_selection evs _ eq_refl).
Defined.




Lemma back_button_of_view (v : Page.View) :
  v <> Page.Loading -> App.has_back_button (Returns v) = true.
Proof. destruct v; [contradiction|reflexivity..]. Qed.

Lemma settled_view_has_back (p : Page.Props) (r : Client.Settled) :
  match r with
  | Client.Fulfilled (JObj o) => Page.wf_response o = true
  | Client.Rejected err => Page.wf_error err = true
  | _ => False
  end ->
  App.has_back_button
    (Page.RaceAnalysis p (Page.analyze_settle r (Page.analyze_begin Page.initial))) = true.
Proof.
  destruct r as [[]|err]; try contradiction.
  - intros Hwf.
    destruct (render_returns p o false JNull Hwf eq_refl) as (v & Hv).
    change (Page.analyze_settle (Client.Fulfilled (JObj o)) (Page.analyze_begin Page.initial))
      with {| Page.loading := false; Page.result := JObj o; Page.error := JNull |}.
    rewrite Hv. apply back_button_of_view. intros ->.
    apply loading_iff_flag in Hv. discriminate Hv.
  - intros Hwf. destruct err; try discriminate Hwf.
    destruct (failure_message_wf o Hwf) as (m & Hm & Hmsg & _).
    unfold Page.analyze_settle. cbn [Client.analyzeRace]. rewrite Hmsg.
    now rewrite (failed_state_view p _ m Hm).
Qed.

(** X10. Analysing and going back is a round trip: from the picker,
    pressing the button, receiving a response of the documented shape or
    an axios failure, and pressing back leads to exactly the state
    before, with the same venue and race selected; the back button is
    there in every such case. *)
Theorem analyze_then_back (s : App.State) (r : Client.Settled) :
  App.screen s = App.Picker ->
  match r with
  | Client.Fulfilled (JObj o) => Page.wf_response o = true
  | Client.Rejected err => Page.wf_error err = true
  | _ => False
  end ->
  App.steps s [App.HandleAnalyze; App.Settles r; App.OnBack] = Some s.
Proof.
  destruct s as [v n scr]. cbn [App.screen]. intros -> Hr.
  cbn [App.steps App.step App.screen App.venue App.raceNumber].
  change (Page.loading (Page.analyze_begin Page.initial)) with true. cbv iota.
  cbn [App.step App.screen App.venue App.raceNumber].
  unfold App.props. cbn [App.venue App.raceNumber].
  now rewrite (settled_view_has_back _ r Hr).
Qed.

Lemma analyze_then_back_witness :
  Page.wf_response Sample.full = true
  /\ App.steps App.initial
       [App.HandleAnalyze; App.Settles (Client.Fulfilled (JObj Sample.full)); App.OnBack]
     = Some App.initial
  /\ App.steps App.initial
       [App.HandleAnalyze; App.Settles (Client.Rejected Sample.network_error); App.OnBack]
     = Some App.initial.
Proof.
  assert (Page.wf_response Sample.full = true) as Hfull by (vm_compute; reflexivity).
  assert (Page.wf_error Sample.network_error = true) as Herr by (vm_compute; reflexivity).
  split; [exact Hfull|]. split.
  - exact (analyze_then_back App.initial (Client.Fulfilled (JObj Sample.full)) eq_refl Hfull).
  - exact (analyze_then_back App.initial (Client.Rejected Sample.network_error) eq_refl Herr).
Defined.

(** X11. A 2xx answer whose body is [null] leaves the app without any
    way on: the page throws while rendering, and in the state reached
    no event can happen any more (no back button, no picker, no request
    pending). *)
Theorem null_body_dead_end (s : App.State) (body : JsVal) :
  App.screen s = App.Picker ->
  body = JNull \/ body = JUndefined ->
  exists s',
    App.steps s [App.HandleAnalyze; App.Settles (Client.Fulfilled body)] = Some s'
    /\ App.view s' = Some (Throws TypeError)
    /\ forall ev, App.step s' ev = None.
Proof.
  destruct s as [v n scr]. cbn [App.screen]. intros -> Hbody.
  eexists. split; [reflexivity|]. split.
  - destruct Hbody as [-> | ->]; reflexivity.
  - intros ev. destruct Hbody as [-> | ->]; destruct ev; reflexivity.
Qed.

Lemma null_body_dead_end_witness :
  exists s',
    App.steps App.initial [App.HandleAnalyze; App.Settles (Client.Fulfilled JNull)] = Some s'
    /\ App.view s' = Some (Throws TypeError)
    /\ forall ev, App.step s' ev = None.
Proof.
  exact (null_body_dead_end App.initial JNull eq_refl (or_introl eq_refl)).
Defined.

(* ================================================================== *)
(** ** The service worker                                              *)
(* ================================================================== *)

Lemma fetch_all_answers (net : ServiceWorker.Network) (urls : list string) :
  is_Some (ServiceWorker.fetch_all net urls)
  <-> (forall u, In u urls ->
         exists r, net (ServiceWorker.GET u) = Some r /\ ServiceWorker.storable r = true).
Proof.
  induction urls as [|u urls IH]; cbn [ServiceWorker.fetch_all].
  - split; [intros _ u []|intros _; eauto].
  - split.
    + destruct (net (ServiceWorker.GET u)) as [r|] eqn:Hu; [|intros [? [=]]].
      destruct (ServiceWorker.storable r) eqn:Hok; [|intros [? [=]]].
      destruct (ServiceWorker.fetch_all net urls) as [entries|]; [|intros [? [=]]].
      intros _ u' [<-|Hin]; [eauto|].
      apply IH; [eauto|exact Hin].
    + intros H. destruct (H u (or_introl eq_refl)) as (r & -> & ->).
      destruct (proj2 IH (fun u' Hin => H u' (or_intror Hin))) as [entries ->]. eauto.
Qed.

Lemma fetch_all_keys (net : ServiceWorker.Network) (urls : list string)
    (entries : list (string * ServiceWorker.Response)) :
  ServiceWorker.fetch_all net urls = Some entries -> map fst entries = urls.
Proof.
  revert entries. induction urls as [|u urls IH]; intros entries;
    cbn [ServiceWorker.fetch_all].
  - now intros [= <-].
  - destruct (net (ServiceWorker.GET u)) as [r|]; [|discriminate].
    destruct (ServiceWorker.storable r); [|discriminate].
    destruct (ServiceWorker.fetch_all net urls) as [es|]; [|discriminate].
    intros [= <-]. cbn. now rewrite (IH es eq_refl).
Qed.

Lemma store_keeps (c : gmap string ServiceWorker.Response)
    (entries : list (string * ServiceWorker.Response)) (u : string) :
  is_Some (c !! u) -> is_Some (ServiceWorker.store c entries !! u).
Proof.
  unfold ServiceWorker.store. revert c.
  induction entries as [|[k r] entries IH]; intros c Hc; cbn [fold_left]; [exact Hc|].
  apply IH. cbn [fst snd]. destruct (decide (k = u)) as [->|Hne].
  - rewrite lookup_insert_eq. eauto.
  - now rewrite lookup_insert_ne.
Qed.

Lemma store_has (c : gmap string ServiceWorker.Response)
    (entries : list (string * ServiceWorker.Response)) (u : string) :
  In u (map fst entries) -> is_Some (ServiceWorker.store c entries !! u).
Proof.
  unfold ServiceWorker.store. revert c.
  induction entries as [|[k r] entries IH]; intros c; cbn [map fst fold_left];
    [intros []|].
  intros [->|Hin]; [|now apply IH].
  apply (store_keeps _ entries u). cbn [fst snd]. rewrite lookup_insert_eq. eauto.
Qed.

Lemma cache_named_open (name : string)
    (caches : list (string * gmap string ServiceWorker.Response)) :
  ServiceWorker.cache_named name (ServiceWorker.caches_open name caches)
  = ServiceWorker.cache_named name caches.
Proof.
  induction caches as [|[n c] caches IH];
    cbn [ServiceWorker.caches_open ServiceWorker.cache_named].
  - now rewrite String.eqb_refl.
  - destruct (String.eqb n name) eqn:E; cbn [ServiceWorker.cache_named]; rewrite E;
      [reflexivity|exact IH].
Qed.

Lemma caches_match_update (name : string) (c' : gmap string ServiceWorker.Response)
    (caches : list (string * gmap string ServiceWorker.Response)) (u : string) :
  is_Some (c' !! u) ->
  is_Some (ServiceWorker.caches_match
             (ServiceWorker.cache_update name c' (ServiceWorker.caches_open name caches))
             (ServiceWorker.GET u)).
Proof.
  intros [r Hr].
  induction caches as [|[n c] caches IH];
    cbn [ServiceWorker.caches_open ServiceWorker.cache_update ServiceWorker.caches_match].
  - rewrite String.eqb_refl. cbn [ServiceWorker.caches_match].
    unfold ServiceWorker.cache_match. cbn. rewrite Hr. eauto.
  - destruct (String.eqb n name) eqn:E; cbn [ServiceWorker.cache_update]; rewrite E;
      cbn [ServiceWorker.caches_match].
    + unfold ServiceWorker.cache_match at 1. cbn. rewrite Hr. eauto.
    + destruct (ServiceWorker.cache_match c (ServiceWorker.GET u)); [eauto|exact IH].
Qed.

Lemma cache_named_update (name : string) (c' : gmap string ServiceWorker.Response)
    (caches : list (string * gmap string ServiceWorker.Response)) :
  ServiceWorker.cache_named name
    (ServiceWorker.cache_update name c' (ServiceWorker.caches_open name caches)) = c'.
Proof.
  induction caches as [|[n c] caches IH];
    cbn [ServiceWorker.caches_open ServiceWorker.cache_update ServiceWorker.cache_named].
  - rewrite String.eqb_refl. cbn [ServiceWorker.cache_named]. now rewrite String.eqb_refl.
  - destruct (String.eqb n name) eqn:E;
      cbn [ServiceWorker.cache_update ServiceWorker.cache_named]; rewrite E;
      cbn [ServiceWorker.cache_named]; rewrite E; [reflexivity|exact IH].
Qed.

Lemma install_outcome (resolve : string -> string) (net : ServiceWorker.Network)
    (caches : list (string * gmap string ServiceWorker.Response)) :
  let urls := map resolve ServiceWorker.STATIC_ASSETS in
  let opened := ServiceWorker.caches_open ServiceWorker.CACHE_NAME caches in
  (exists entries,
     NoDup urls /\ ServiceWorker.fetch_all net urls = Some entries
     /\ ServiceWorker.install resolve net caches
        = (true, ServiceWorker.cache_update ServiceWorker.CACHE_NAME
                   (ServiceWorker.store
                      (ServiceWorker.cache_named ServiceWorker.CACHE_NAME opened) entries)
                   opened))
  \/ ((~ NoDup urls \/ ServiceWorker.fetch_all net urls = None)
      /\ ServiceWorker.install resolve net caches = (false, opened)).
Proof.
  intros urls opened. unfold ServiceWorker.install, ServiceWorker.addAll.
  fold urls. fold opened.
  destruct (bool_decide (NoDup urls)) eqn:Hnd.
  - apply bool_decide_eq_true in Hnd.
    destruct (ServiceWorker.fetch_all net urls) as [entries|] eqn:Hf; cbn [option_map].
    + left. exists entries. now repeat split.
    + right. split; [now right|reflexivity].
  - apply bool_decide_eq_false in Hnd. right. split; [now left|reflexivity].
Qed.

(** X12. Installing is all or nothing: the worker installs exactly when
    the four static assets are four different URLs and every one of
    them is fetched with a status [addAll] accepts (2xx but 206); then
    each of them is in the cache [kyotei-pwa-v1], and otherwise that
    cache holds what it held before (a single missing icon keeps the
    whole shell out of the cache). *)
Theorem install_all_or_nothing (resolve : string -> string) (net : ServiceWorker.Network)
    (caches : list (string * gmap string ServiceWorker.Response)) :
  (fst (ServiceWorker.install resolve net caches) = true
   <-> NoDup (map resolve ServiceWorker.STATIC_ASSETS)
       /\ forall a, In a ServiceWorker.STATIC_ASSETS ->
             exists r, net (ServiceWorker.GET (resolve a)) = Some r
                       /\ ServiceWorker.storable r = true)
  /\ (fst (ServiceWorker.install resolve net caches) = true ->
      forall a, In a ServiceWorker.STATIC_ASSETS ->
        is_Some (ServiceWorker.cache_named ServiceWorker.CACHE_NAME
                   (snd (ServiceWorker.install resolve net caches)) !! resolve a))
  /\ (fst (ServiceWorker.install resolve net caches) = false ->
      ServiceWorker.cache_named ServiceWorker.CACHE_NAME
        (snd (ServiceWorker.install resolve net caches))
      = ServiceWorker.cache_named ServiceWorker.CACHE_NAME caches).
Proof.
  pose proof (fetch_all_answers net (map resolve ServiceWorker.STATIC_ASSETS)) as Hall.
  destruct (install_outcome resolve net caches)
    as [(entries & Hnd & Hfetch & ->)|(Hwhy & ->)]; cbn [fst snd].
  - split; [|split].
    + split; [|reflexivity]. intros _. split; [exact Hnd|]. intros a Ha.
      apply (proj1 Hall); [eauto|]. now apply in_map.
    + intros _ a Ha. rewrite cache_named_update. apply store_has.
      rewrite (fetch_all_keys _ _ _ Hfetch). now apply in_map.
    + discriminate.
  - split; [|split].
    + split; [discriminate|]. intros [Hnd H]. exfalso.
      destruct Hwhy as [Hdup|Hnone]; [contradiction|].
      assert (is_Some (ServiceWorker.fetch_all net
                         (map resolve ServiceWorker.STATIC_ASSETS))) as [? Hsome].
      { apply (proj2 Hall). intros u Hu.
        apply in_map_iff in Hu as (a & <- & Ha). now apply H. }
      rewrite Hnone in Hsome. discriminate Hsome.
    + discriminate.
    + intros _. apply cache_named_open.
Qed.

Lemma install_all_or_nothing_witness :
  fst (ServiceWorker.install (fun u => u) Sample.no_icon []) = false
  /\ ServiceWorker.cache_named ServiceWorker.CACHE_NAME
       (snd (ServiceWorker.install (fun u => u) Sample.no_icon [])) = ∅
  /\ fst (ServiceWorker.install (fun u => u) Sample.online []) = true
  /\ forall a, In a ServiceWorker.STATIC_ASSETS ->
       is_Some (ServiceWorker.cache_named ServiceWorker.CACHE_NAME
                  (snd (ServiceWorker.install (fun u => u) Sample.online [])) !! a).
Proof.
  assert (fst (ServiceWorker.install (fun u => u) Sample.no_icon []) = false) as Hno
    by (vm_compute; reflexivity).
  assert (fst (ServiceWorker.install (fun u => u) Sample.online []) = true) as Hyes
    by (vm_compute; reflexivity).
  split; [exact Hno|].
  split; [exact (proj2 (proj2 (install_all_or_nothing (fun u => u) Sample.no_icon []))
                   Hno)|].
  split; [exact Hyes|].
  exact (proj1 (proj2 (install_all_or_nothing (fun u => u) Sample.online [])) Hyes).
Defined.

(** X13. Once the worker is installed, a GET for any of the four static
    assets is always answered, whatever the network does afterwards (in
    particular when it is down): the handler never fails on the app
    shell. *)
Theorem static_assets_always_answered (resolve pathname : string -> string)
    (net : ServiceWorker.Network)
    (caches : list (string * gmap string ServiceWorker.Response))
    (a : string) (later : ServiceWorker.Network) :
  fst (ServiceWorker.install resolve net caches) = true ->
  In a ServiceWorker.STATIC_ASSETS ->
  exists r,
    ServiceWorker.on_fetch pathname later (snd (ServiceWorker.install resolve net caches))
      (ServiceWorker.GET (resolve a))
    = ServiceWorker.Respond r.
Proof.
  intros Hinst Ha.
  assert (is_Some (ServiceWorker.caches_match
                     (snd (ServiceWorker.install resolve net caches))
                     (ServiceWorker.GET (resolve a)))) as [r Hr].
  { revert Hinst.
    destruct (install_outcome resolve net caches)
      as [(entries & _ & Hfetch & ->)|(_ & ->)]; cbn [fst snd]; [intros _|discriminate].
    apply caches_match_update, store_has.
    rewrite (fetch_all_keys _ _ _ Hfetch). now apply in_map. }
  unfold ServiceWorker.on_fetch. rewrite Hr.
  destruct (ServiceWorker.endsWith _ _); [|eauto].
  destruct (later (ServiceWorker.GET (resolve a))); eauto.
Qed.

Lemma static_assets_always_answered_witness :
  fst (ServiceWorker.install (fun u => u) Sample.online []) = true
  /\ In "./manifest.json" ServiceWorker.STATIC_ASSETS
  /\ ServiceWorker.endsWith "./manifest.json" ".json" = true
  /\ exists r,
       ServiceWorker.on_fetch (fun u => u) Sample.offline
         (snd (ServiceWorker.install (fun u => u) Sample.online []))
         (ServiceWorker.GET "./manifest.json")
       = ServiceWorker.Respond r.
Proof.
  assert (In "./manifest.json" ServiceWorker.STATIC_ASSETS) as Hin by (cbn; tauto).
  assert (fst (ServiceWorker.install (fun u => u) Sample.online []) = true) as Hyes
    by (vm_compute; reflexivity).
  split; [exact Hyes|]. split; [exact Hin|]. split; [reflexivity|].
  exact (static_assets_always_answered (fun u => u) (fun u => u) Sample.online []
           "./manifest.json" Sample.offline Hyes Hin).
Defined.

Lemma cache_match_not_get (c : gmap string ServiceWorker.Response)
    (req : ServiceWorker.Request) :
  ServiceWorker.method req <> "GET" -> ServiceWorker.cache_match c req = None.
Proof.
  intros H. unfold ServiceWorker.cache_match.
  destruct (String.eqb (ServiceWorker.method req) "GET") eqn:E; [|reflexivity].
  apply String.eqb_eq in E. contradiction.
Qed.

Lemma caches_match_not_get (caches : list (string * gmap string ServiceWorker.Response))
    (req : ServiceWorker.Request) :
  ServiceWorker.method req <> "GET" -> ServiceWorker.caches_match caches req = None.
Proof.
  intros H. induction caches as [|[n c] caches IH]; cbn [ServiceWorker.caches_match];
    [reflexivity|].
  now rewrite (cache_match_not_get c req H).
Qed.

(** X14. How a request is answered.  The handler fails exactly when the
    network fails and no cache has the request.  For a path ending in
    [.json] an answer of the network is passed on whatever the caches
    hold (an error status included); for any other path a cached copy is
    passed on whatever the network would say.  A request that is not a
    GET, such as the POST of the analysis, is never answered from a
    cache. *)
Theorem fetch_strategy (pathname : string -> string) (net : ServiceWorker.Network)
    (caches : list (string * gmap string ServiceWorker.Response))
    (req : ServiceWorker.Request) :
  (ServiceWorker.on_fetch pathname net caches req = ServiceWorker.NetworkError
   <-> net req = None /\ ServiceWorker.caches_match caches req = None)
  /\ (ServiceWorker.endsWith (pathname (ServiceWorker.url req)) ".json" = true ->
      forall r, net req = Some r ->
                ServiceWorker.on_fetch pathname net caches req = ServiceWorker.Respond r)
  /\ (ServiceWorker.endsWith (pathname (ServiceWorker.url req)) ".json" = false ->
      forall r, ServiceWorker.caches_match caches req = Some r ->
                ServiceWorker.on_fetch pathname net caches req = ServiceWorker.Respond r)
  /\ (ServiceWorker.method req <> "GET" ->
      ServiceWorker.on_fetch pathname net caches req
      = match net req with
        | Some r => ServiceWorker.Respond r
        | None => ServiceWorker.NetworkError
        end).
Proof.
  unfold ServiceWorker.on_fetch. repeat split.
  - destruct (ServiceWorker.endsWith _ _), (net req),
      (ServiceWorker.caches_match caches req); try discriminate; reflexivity.
  - destruct (ServiceWorker.endsWith _ _), (net req),
      (ServiceWorker.caches_match caches req); try discriminate; reflexivity.
  - intros [-> ->]. now destruct (ServiceWorker.endsWith _ _).
  - intros -> r ->. reflexivity.
  - intros -> r ->. reflexivity.
  - intros H. rewrite (caches_match_not_get caches req H).
    now destruct (ServiceWorker.endsWith _ _), (net req).
Qed.

Lemma fetch_strategy_witness :
  let stale := {| ServiceWorker.status := 200; ServiceWorker.content := "old" |} in
  let fresh := {| ServiceWorker.status := 500; ServiceWorker.content := "error" |} in
  let caches := [(ServiceWorker.CACHE_NAME,
                  ({[ "/data.json" := stale; "/index.html" := stale ]}
                   : gmap string ServiceWorker.Response))] in
  let net : ServiceWorker.Network := fun _ => Some fresh in
  ServiceWorker.on_fetch (fun u => u) net caches (ServiceWorker.GET "/data.json")
  = ServiceWorker.Respond fresh
  /\ ServiceWorker.on_fetch (fun u => u) net caches (ServiceWorker.GET "/index.html")
     = ServiceWorker.Respond stale
  /\ ServiceWorker.on_fetch (fun u => u) net caches
       {| ServiceWorker.method := "POST"; ServiceWorker.url := "/index.html" |}
     = ServiceWorker.Respond fresh.
Proof.
  intros stale fresh caches net.
  split; [|split].
  - exact (proj1 (proj2 (fetch_strategy (fun u => u) net caches
                           (ServiceWorker.GET "/data.json")))
             eq_refl fresh eq_refl).
  - exact (proj1 (proj2 (proj2 (fetch_strategy (fun u => u) net caches
                                   (ServiceWorker.GET "/index.html"))))
             eq_refl stale eq_refl).
  - assert ("POST" <> "GET") as Hne by discriminate.
    exact (proj2 (proj2 (proj2 (fetch_strategy (fun u => u) net caches
                                  {| ServiceWorker.method := "POST";
                                     ServiceWorker.url := "/index.html" |})))
             Hne).
Defined.
